(** * Instrument wrappers of the test bench: channel lists, block replies,
      overlapped acquisition and limit checking

    A shallow embedding of the parts of [cdaq34972.py], [cdvm34411.py],
    [cdaq3706.py], [testlog.py] and [error.py] that validate channel lists,
    configure a function, run an overlapped acquisition and check limits.

    Python objects with mutable attributes become records threaded through
    a state-and-exception monad; [print] appends to the console of the
    state; a raised exception is a result of its own, distinct from every
    returned value.  The built-ins follow Python 3, which the repository
    is written for ([input], [str.encode]): [/] is true division, a
    string never compares with a number, and [%X] refuses a float.
    Floats are the binary64 floats of the kernel. *)

From Stdlib Require Import ZArith Lia Bool List String Ascii.
From Stdlib Require Import Floats DecimalString.
Import ListNotations.

#[local] Set Warnings "-inexact-float,-register-all".

Local Open Scope string_scope.
Local Open Scope Z_scope.

(* ================================================================== *)
(** * Python built-ins used by the wrappers *)
(* ================================================================== *)

Module Py.

(** Exceptions that the modelled code can raise. [VisaIOError] is whatever
    the VISA session raises. *)
Inductive exn : Type :=
  | ValueError | IndexError | KeyError | TypeError | NameError
  | AttributeError | ZeroDivisionError | OverflowError | VisaIOError.

(** A Python number: an unbounded [int] or a binary64 [float]. *)
Inductive num : Type :=
  | Int (z : Z)
  | Float (x : float).

(** ** Characters *)

Definition code (c : ascii) : N := N_of_ascii c.

Definition is_digit (c : ascii) : bool :=
  ((48 <=? code c) && (code c <=? 57))%N.

Definition digit_val (c : ascii) : Z := Z.of_N (code c) - 48.

(** [str.isspace] on one character with a code point below 256:
    TAB..CR, FS..US, SPACE, NEL and NBSP. *)
Definition is_space (c : ascii) : bool :=
  (((9 <=? code c) && (code c <=? 13)) ||
   ((28 <=? code c) && (code c <=? 32)) ||
   (code c =? 133) || (code c =? 160))%N.

Definition is_lower (c : ascii) : bool :=
  ((97 <=? code c) && (code c <=? 122))%N.

Definition upper_char (c : ascii) : ascii :=
  if is_lower c then ascii_of_N (code c - 32) else c.

(** ** Strings *)

(** [s.upper()], exact on ASCII text. *)
Fixpoint upper (s : string) : string :=
  match s with
  | EmptyString => EmptyString
  | String c r => String (upper_char c) (upper r)
  end.

Fixpoint lstrip (s : string) : string :=
  match s with
  | EmptyString => EmptyString
  | String c r => if is_space c then lstrip r else s
  end.

Fixpoint rstrip (s : string) : string :=
  match s with
  | EmptyString => EmptyString
  | String c r =>
      match rstrip r with
      | EmptyString => if is_space c then EmptyString else String c EmptyString
      | r' => String c r'
      end
  end.

(** [s.strip()] *)
Definition strip (s : string) : string := rstrip (lstrip s).

(** [s.split(sep)] for a one-character separator: never empty. *)
Fixpoint split (sep : ascii) (s : string) : list string :=
  match s with
  | EmptyString => [EmptyString]
  | String c r =>
      if Ascii.eqb c sep then EmptyString :: split sep r
      else match split sep r with
           | h :: t => String c h :: t
           | [] => [String c EmptyString]
           end
  end.

(** [s.find(ch)] for a one-character needle: first index, or -1. *)
Fixpoint find (ch : ascii) (s : string) : Z :=
  match s with
  | EmptyString => -1
  | String c r =>
      if Ascii.eqb c ch then 0
      else let i := find ch r in if (i =? -1)%Z then -1 else i + 1
  end.

(** [s[i]] for [i >= 0]: the one-character string, or [IndexError]. *)
Definition index (s : string) (i : nat) : exn + string :=
  match String.get i s with
  | Some c => inr (String c EmptyString)
  | None => inl IndexError
  end.

(** [s[i:]] for [i >= 0]: never raises. *)
Fixpoint slice_from (i : nat) (s : string) : string :=
  match i, s with
  | O, _ => s
  | S _, EmptyString => EmptyString
  | S j, String _ r => slice_from j r
  end.

(** ** Numeric literals *)

(** The longest prefix of digits: its value on top of [acc], how many
    digits it has, and the rest of the string. *)
Fixpoint take_digits (s : string) (acc : Z) (n : nat) : Z * nat * string :=
  match s with
  | String c r =>
      if is_digit c then take_digits r (10 * acc + digit_val c) (S n)
      else (acc, n, s)
  | EmptyString => (acc, n, EmptyString)
  end.

(** Underscores of a numeric literal: one is allowed only between two
    digits.  Returns the literal without them, or [None]. *)
Fixpoint drop_underscores (prev : ascii) (s : string) : option string :=
  match s with
  | EmptyString => if Ascii.eqb prev "_" then None else Some EmptyString
  | String c r =>
      if Ascii.eqb c "_" then
        if is_digit prev then drop_underscores c r else None
      else if Ascii.eqb prev "_" && negb (is_digit c) then None
      else option_map (String c) (drop_underscores c r)
  end.

(** An optional sign: [true] for a minus. *)
Definition take_sign (s : string) : bool * string :=
  match s with
  | String "-" r => (true, r)
  | String "+" r => (false, r)
  | _ => (false, s)
  end.

(** [int(s)] for a string, base 10. *)
Definition int (s : string) : exn + Z :=
  match drop_underscores "000" (strip s) with
  | None => inl ValueError
  | Some t =>
      let (neg, body) := take_sign t in
      match take_digits body 0 0 with
      | (v, S _, EmptyString) => inr (if neg then - v else v)
      | _ => inl ValueError
      end
  end.

(** The value [(-1)^neg * m * 10^e10] rounded to the nearest binary64,
    ties to even; out of range gives an infinity. *)
Definition round_decimal (neg : bool) (m : Z) (e10 : Z) : float :=
  SF2Prim
    match m with
    | Z0 => S754_zero neg
    | Zpos p =>
        if 0 <=? e10 then
          match Zpos p * 10 ^ e10 with
          | Zpos q => binary_round prec emax neg q 0
          | _ => S754_nan
          end
        else
          let '(q, e, l) :=
            SFdiv_core_binary prec emax (Zpos p) 0 (10 ^ (- e10)) 0 in
          binary_round_aux prec emax neg q e l
    | Zneg _ => S754_nan
    end.

(** A decimal literal without sign: digits, an optional point, digits, an
    optional exponent; at least one digit in the mantissa and, when there
    is an exponent mark, in the exponent.  Returns mantissa and power of
    ten. *)
Definition decimal_literal (s : string) : option (Z * Z) :=
  let '(ip, ni, r1) := take_digits s 0 0 in
  let '(fp, nf, r2) :=
    match r1 with
    | String "." r => take_digits r ip 0
    | _ => (ip, O, r1)
    end in
  match (ni + nf)%nat with
  | O => None
  | S _ =>
      match r2 with
      | EmptyString => Some (fp, - Z.of_nat nf)
      | String c r3 =>
          if Ascii.eqb c "e" || Ascii.eqb c "E" then
            let (eneg, r4) := take_sign r3 in
            match take_digits r4 0 0 with
            | (ex, S _, EmptyString) =>
                Some (fp, (if eneg then - ex else ex) - Z.of_nat nf)
            | _ => None
            end
          else None
      end
  end.

(** [float(s)] for a string. *)
Definition float_of_string (s : string) : exn + float :=
  match drop_underscores "000" (strip s) with
  | None => inl ValueError
  | Some t =>
      let (neg, body) := take_sign t in
      let special := upper body in
      if String.eqb special "INF" || String.eqb special "INFINITY" then
        inr (if neg then neg_infinity else infinity)
      else if String.eqb special "NAN" then inr nan
      else match decimal_literal body with
           | Some (m, e) => inr (round_decimal neg m e)
           | None => inl ValueError
           end
  end.

(** ['%d' % n] and [str(n)] for an [int]. *)
Definition str_int (n : Z) : string := NilZero.string_of_int (Z.to_int n).

(** ** Comparison of numbers

    Python compares an [int] with a [float] by exact value; any
    comparison with a NaN is false. *)

Definition cmp_Z_SF (z : Z) (f : spec_float) : option comparison :=
  match f with
  | S754_nan => None
  | S754_infinity s => Some (if s then Gt else Lt)
  | S754_zero _ => Some (z ?= 0)
  | S754_finite s m e =>
      let v := if s then Zneg m else Zpos m in
      if 0 <=? e then Some (z ?= v * 2 ^ e)
      else Some (z * 2 ^ (- e) ?= v)
  end.

Definition compare (a b : num) : option comparison :=
  match a, b with
  | Int x, Int y => Some (x ?= y)
  | Float x, Float y => SFcompare (Prim2SF x) (Prim2SF y)
  | Int x, Float y => cmp_Z_SF x (Prim2SF y)
  | Float x, Int y => option_map CompOpp (cmp_Z_SF y (Prim2SF x))
  end.

(** [a < b] *)
Definition lt (a b : num) : bool :=
  match a, b with
  | Float x, Float y => PrimFloat.ltb x y
  | _, _ => match compare a b with Some Lt => true | _ => false end
  end.

(** [a > b] *)
Definition gt (a b : num) : bool := lt b a.

(** [a == b] *)
Definition eq (a b : num) : bool :=
  match a, b with
  | Float x, Float y => PrimFloat.eqb x y
  | _, _ => match compare a b with Some Eq => true | _ => false end
  end.

(** ** True division [a / b]

    The quotient of two [int]s is the exact quotient rounded once; an
    [int] meeting a [float] is converted first.  Both raise
    [OverflowError] when the [int] result does not fit a float. *)

Definition finite_or_overflow (f : spec_float) : exn + float :=
  match f with
  | S754_infinity _ => inl OverflowError
  | _ => inr (SF2Prim f)
  end.

(** [float(z)] for an [int]. *)
Definition float_of_int (z : Z) : exn + float :=
  finite_or_overflow (binary_normalize prec emax z 0 false).

Definition div_int (a b : Z) : exn + float :=
  let neg := xorb (a <? 0) (b <? 0) in
  match Z.abs a, Z.abs b with
  | _, Z0 => inl ZeroDivisionError
  | Z0, _ => inr (SF2Prim (S754_zero neg))
  | Zpos p, Zpos q =>
      let '(m, e, l) := SFdiv_core_binary prec emax (Zpos p) 0 (Zpos q) 0 in
      finite_or_overflow (binary_round_aux prec emax neg m e l)
  | _, _ => inl ZeroDivisionError
  end.

Definition div_float (x y : float) : exn + float :=
  if PrimFloat.eqb y 0 then inl ZeroDivisionError
  else inr (PrimFloat.div x y).

Definition div (a b : num) : exn + float :=
  match a, b with
  | Int x, Int y => div_int x y
  | Float x, Float y => div_float x y
  | Int x, Float y =>
      match float_of_int x with
      | inl e => inl e
      | inr fx => div_float fx y
      end
  | Float x, Int y =>
      match float_of_int y with
      | inl e => inl e
      | inr fy => div_float x fy
      end
  end.

(** ** More string methods *)

Definition is_upper (c : ascii) : bool :=
  ((65 <=? code c) && (code c <=? 90))%N.

Definition lower_char (c : ascii) : ascii :=
  if is_upper c then ascii_of_N (code c + 32) else c.

(** [s.lower()], exact on ASCII text. *)
Fixpoint lower (s : string) : string :=
  match s with
  | EmptyString => EmptyString
  | String c r => String (lower_char c) (lower r)
  end.

(** [n] spaces. *)
Fixpoint spaces (n : nat) : string :=
  match n with
  | O => EmptyString
  | S k => String " " (spaces k)
  end.

(** ['%-16s' % s] with the width as a parameter: [s] padded on the right
    with spaces up to [width], never cut. *)
Definition ljust (width : nat) (s : string) : string :=
  (s ++ spaces (width - String.length s))%string.

End Py.

(* ================================================================== *)
(** * The process: console, clock, VISA session, log file, error counter *)
(* ================================================================== *)

(** Text built by the program.  [str(x)] of a float [x] is kept as the
    piece [Repr x] and a number under a [%] conversion as [Fmt]: the
    digits Python prints for them are not modelled.  Everything else is
    literal. *)
Inductive piece : Type :=
  | Lit (s : string)
  | Repr (x : float)
  | Fmt (conv : string) (n : Py.num).

Definition text : Type := list piece.

(** Concatenation of pieces, adjacent literals merged. *)
Fixpoint cat (t : list piece) : text :=
  match t with
  | [] => []
  | Lit a :: r =>
      match cat r with
      | Lit b :: r' => Lit (a ++ b) :: r'
      | r' => match a with EmptyString => r' | _ => Lit a :: r' end
      end
  | p :: r => p :: cat r
  end.

(** [str(n)] for a number. *)
Definition str_num (n : Py.num) : piece :=
  match n with
  | Py.Int z => Lit (Py.str_int z)
  | Py.Float x => Repr x
  end.

(** A value that a method of the wrappers returns. *)
Inductive value : Type :=
  | VBool (b : bool)
  | VNum (n : Py.num)
  | VStr (s : string)
  | VList (l : list value).

(** How a statement ends: with a value or with a raised exception. *)
Inductive outcome (A : Type) : Type :=
  | Ret (a : A)
  | Raise (e : Py.exn).
Arguments Ret {A} a.
Arguments Raise {A} e.

(** The VISA session of an instrument, seen from the wrapper:
    [handle.write(cmd)] and [handle.ask(cmd)], each of which may raise. *)
Class Transport (H : Type) : Type := {
  visa_write : text -> H -> outcome unit * H;
  visa_ask : text -> H -> outcome string * H
}.

(** A file object open for writing, or closed. *)
Record pyfile : Type := {
  closed : bool;
  lines : list text
}.

Record world (H : Type) : Type := {
  handle : H;                 (* self.handle of the wrapper in use *)
  console : list text;        (* lines printed so far, oldest first *)
  clock : nat -> float;       (* value of the n-th call of time.time() *)
  ticks : nat;                (* calls of time.time() so far *)
  logfile : option pyfile;    (* Log.file, None until a log is opened *)
  errorCount : Z              (* Err.errorCount *)
}.
Arguments handle {H} w.
Arguments console {H} w.
Arguments clock {H} w.
Arguments ticks {H} w.
Arguments logfile {H} w.
Arguments errorCount {H} w.

Section Monad.
Context {H : Type}.

Definition M (A : Type) : Type := world H -> outcome A * world H.

Definition ret {A} (a : A) : M A := fun w => (Ret a, w).

Definition raise {A} (e : Py.exn) : M A := fun w => (Raise e, w).

Definition bind {A B} (m : M A) (k : A -> M B) : M B :=
  fun w =>
    match m w with
    | (Ret a, w') => k a w'
    | (Raise e, w') => (Raise e, w')
    end.

(** A built-in that raises or returns. *)
Definition lift {A} (r : Py.exn + A) : M A :=
  match r with
  | inl e => raise e
  | inr a => ret a
  end.

Definition with_console (c : list text) (w : world H) : world H :=
  {| handle := handle w; console := c; clock := clock w; ticks := ticks w;
     logfile := logfile w; errorCount := errorCount w |}.

Definition with_handle (h : H) (w : world H) : world H :=
  {| handle := h; console := console w; clock := clock w; ticks := ticks w;
     logfile := logfile w; errorCount := errorCount w |}.

Definition with_ticks (n : nat) (w : world H) : world H :=
  {| handle := handle w; console := console w; clock := clock w; ticks := n;
     logfile := logfile w; errorCount := errorCount w |}.

Definition with_logfile (f : option pyfile) (w : world H) : world H :=
  {| handle := handle w; console := console w; clock := clock w;
     ticks := ticks w; logfile := f; errorCount := errorCount w |}.

Definition with_errorCount (n : Z) (w : world H) : world H :=
  {| handle := handle w; console := console w; clock := clock w;
     ticks := ticks w; logfile := logfile w; errorCount := n |}.

(** [print(line)] for a line with numbers in it. *)
Definition print_text (line : text) : M unit :=
  fun w => (Ret tt, with_console (console w ++ [line]) w).

(** [print('...')] *)
Definition print (line : string) : M unit := print_text [Lit line].

(** [try: m  except Exception: print(line); raise] *)
Definition reraising (line : string) {A} (m : M A) : M A :=
  fun w =>
    match m w with
    | (Raise e, w') => (Raise e, snd (print line w'))
    | r => r
    end.

(** [time.time()] *)
Definition time_time : M float :=
  fun w => (Ret (clock w (ticks w)), with_ticks (S (ticks w)) w).

(** [time.sleep(d)]: the passing of time shows only in what the clock
    returns next, which [clock] already fixes. *)
Definition time_sleep (d : Py.num) : M unit := ret tt.

(** [for x in l: body], where the body may [return]; [after] is the code
    that follows the loop. *)
Fixpoint for_each {A R} (body : A -> M (option R)) (l : list A)
    (after : M R) : M R :=
  match l with
  | [] => after
  | x :: r =>
      bind (body x) (fun o =>
        match o with
        | Some v => ret v
        | None => for_each body r after
        end)
  end.

Context {T : Transport H}.

(** [self.handle.write(cmd)] *)
Definition write (cmd : text) : M unit :=
  fun w => let (r, h) := visa_write cmd (handle w) in (r, with_handle h w).

(** [self.handle.ask(cmd)] *)
Definition ask (cmd : text) : M string :=
  fun w => let (r, h) := visa_ask cmd (handle w) in (r, with_handle h w).

End Monad.

Declare Scope py_scope.
Delimit Scope py_scope with py.
Notation "x <- m ;; k" := (bind m (fun x => k))
  (at level 61, m at next level, right associativity) : py_scope.
Notation "m ;;; k" := (bind m (fun _ => k))
  (at level 61, right associativity) : py_scope.
Local Open Scope py_scope.

(** The double quote and the line feed, as strings. *)
Definition dquote : string := String (ascii_of_N 34) EmptyString.
Definition newline : string := String (ascii_of_N 10) EmptyString.

(** [x in t] for a tuple or list of strings. *)
Definition among (x : string) (t : list string) : bool :=
  existsb (String.eqb x) t.

(** [l == False] for a list [l]: a list is never equal to a bool. *)
Definition list_eq_bool (l : list string) (b : bool) : bool := false.

(** An argument that callers pass either as a string or as a number
    ([rng = 'AUTO'] or [rng = 10]). *)
Inductive arg : Type :=
  | AStr (s : string)
  | ANum (n : Py.num).

(** [a == 'lit'] *)
Definition arg_is (a : arg) (lit : string) : bool :=
  match a with
  | AStr s => String.eqb s lit
  | ANum _ => false
  end.

(** [a < n]: a string against a number raises. *)
Definition arg_lt (a : arg) (n : Py.num) : Py.exn + bool :=
  match a with
  | AStr _ => inl Py.TypeError
  | ANum x => inr (Py.lt x n)
  end.

(** [a > n] *)
Definition arg_gt (a : arg) (n : Py.num) : Py.exn + bool :=
  match a with
  | AStr _ => inl Py.TypeError
  | ANum x => inr (Py.gt x n)
  end.

(** [str(a)] *)
Definition str_arg (a : arg) : piece :=
  match a with
  | AStr s => Lit s
  | ANum n => str_num n
  end.

(** [d[key]] for a dict written as its items in order. *)
Fixpoint lookup {V} (d : list (string * V)) (key : string) : Py.exn + V :=
  match d with
  | [] => inl Py.KeyError
  | (k, v) :: r => if String.eqb k key then inr v else lookup r key
  end.

(** [(a, b) = t] for a tuple [t]. *)
Definition unpack2 {V} (t : list V) : Py.exn + (V * V) :=
  match t with
  | [a; b] => inr (a, b)
  | _ => inl Py.ValueError
  end.

(** The definite-length-block header as the wrappers read it: the
    character after ['#'] gives the number of length digits, which are
    skipped together with it; the result is everything after them. *)
Definition after_block_header (reading : string) : Py.exn + string :=
  match Py.index reading 1 with
  | inl e => inl e
  | inr d =>
      match Py.int d with
      | inl e => inl e
      | inr digits => inr (Py.slice_from (2 + Z.to_nat digits) reading)
      end
  end.

(** The number of passes of [for i in range(0, count)]: [range] takes an
    [int]. *)
Definition range_length (count : Py.num) : Py.exn + nat :=
  match count with
  | Py.Int z => inr (Z.to_nat z)
  | Py.Float _ => inl Py.TypeError
  end.

(** A loop that may not end is run with fuel: [None] when it runs out. *)
Definition partial (H A : Type) : Type :=
  world H -> option (outcome A * world H).

(* ================================================================== *)
(** * cdaq34972.py *)
(* ================================================================== *)

Module Daq34972.
Section Methods.
Context {H : Type} {T : Transport H}.

(** The body of the loop of [checkList]: [Some b] is [return b], [None]
    falls through to the next item. *)
Definition checkItem (item : string) : M (H := H) (option bool) :=
  let item := Py.strip item in
  if negb (Py.find ":" item =? -1) then
    match Py.split ":" item with
    | [fromCh; toCh] =>
        fromCh <- lift (Py.int fromCh) ;;
        toCh <- lift (Py.int toCh) ;;
        if fromCh >? toCh then
          print "Daq34972:checkList() invalid range !" ;;; ret (Some false)
        else if negb ((101 <=? fromCh) && (fromCh <=? 399) &&
                      ((101 <=? toCh) && (toCh <=? 399))) then
          print "Daq34972:checkList() invalid channel number !" ;;;
          ret (Some false)
        else ret None
    | _ => raise Py.ValueError      (* unpacking into two names *)
    end
  else
    chan <- lift (Py.int item) ;;
    if negb ((101 <=? chan) && (chan <=? 440)) then
      print "Daq34972:checkList() invalid channel number !" ;;;
      ret (Some false)
    else ret None.

Definition checkList (chlist : string) : M (H := H) bool :=
  let items := Py.split "," chlist in
  for_each checkItem items (ret true).

Definition ranges : list (string * list Py.num) :=
  [ ("CURR:DC", [Py.Float 0.01; Py.Float 1]);
    ("CURR:AC", [Py.Float 0.01; Py.Float 1]);
    ("DIG", []);
    ("FREQ", []);
    ("FRES", [Py.Int 100; Py.Float 1e8]);
    ("PER", []);
    ("RES", [Py.Int 100; Py.Float 1e8]);
    ("TEMP", []);
    ("TOT", []);
    ("VOLT:DC", [Py.Float 0.1; Py.Float 300]);
    ("VOLT:AC", [Py.Float 0.1; Py.Float 300]) ].

Definition noRange : list string := ["DIG"; "FREQ"; "PER"; "TEMP"; "TOT"].

Definition hasNplc : list string :=
  ["VOLT:DC"; "CURR:DC"; "RES"; "FRES"; "TEMP"].

(** [configScan(scanList, func, rng, nplc)].  The first test is the
    chained comparison [func in keys == False], that is
    [(func in keys) and (keys == False)]. *)
Definition configScan (scanList : string) (func : string) (rng : arg)
    (nplc : Py.num) : M (H := H) bool :=
  let func := Py.upper func in
  let keys := map fst ranges in
  if among func keys && list_eq_bool keys false then
    print "Daq34972.configScan() - illegal function !" ;;; ret false
  else
    (* range: [Some strRng] when the function takes one *)
    checked <-
      (if Bool.eqb (among func noRange) false then
         if arg_is rng "AUTO" then
           ret (inr (Some (cat [Lit " "; str_arg (AStr "AUTO")])))
         else
           bounds <- lift (lookup ranges func) ;;
           mm <- lift (unpack2 bounds) ;;
           below <- lift (arg_lt rng (fst mm)) ;;
           above <- (if below then ret true else lift (arg_gt rng (snd mm))) ;;
           if above then
             print "Daq34972.configScan() illegal range !" ;;; ret (inl false)
           else ret (inr (Some (cat [Lit " "; str_arg rng])))
       else ret (inr None)) ;;
    match checked with
    | inl b => ret b
    | inr strRng =>
        if Bool.eqb (among func hasNplc) true
           && (Py.lt nplc (Py.Float 0.02) || Py.gt nplc (Py.Int 200)) then
          print "Daq34972.configScan() illegal NPLC !" ;;; ret false
        else
          ok <- checkList scanList ;;
          if Bool.eqb ok false then
            print "Daq34972.configScan() illegal scan list !" ;;; ret false
          else
            let scanList := cat [Lit "(@"; Lit scanList; Lit ")"] in
            reraising "Exception in Daq34972.configScan() !"
              (cmd <-
                 (if Bool.eqb (among func noRange) false then
                    match strRng with
                    | Some strRng =>
                        ret (cat ([Lit "CONF:"; Lit func] ++ strRng
                                    ++ [Lit ","] ++ scanList))
                    | None => raise Py.NameError
                    end
                  else if String.eqb func "DIG" then
                    ret (cat (Lit "CONF:DIG:BYTE" :: scanList))
                  else
                    ret (cat ([Lit "CONF:"; Lit func; Lit " DEF,"]
                                ++ scanList))) ;;
               write cmd ;;;
               if Bool.eqb (among func hasNplc) true then
                 write (cat [Lit func; Lit ":NPLC "; str_num nplc])
               else ret tt) ;;;
            ret true
    end.

(** [read()] *)
Definition read : M (H := H) Py.num :=
  reading <- reraising "Exception in Daq34972.read() !" (ask [Lit "READ?"]) ;;
  volt <- reraising "Daq34972.read() exception in conversion to float !"
            (lift (Py.float_of_string reading)) ;;
  ret (Py.Float volt).

(** [readSwitch(switch, delay)]: the reading, or [False] for a switch
    number out of range. *)
Definition readSwitch (switch : Z) (delay : Py.num) : M (H := H) value :=
  if negb ((101 <=? switch) && (switch <=? 399)) then
    print "Daq34972.readSwitch() illegal switch number !" ;;;
    ret (VBool false)
  else
    let scanList := cat [Lit "(@"; Lit (Py.str_int switch); Lit ")"] in
    reading <- reraising "Excaption in Daq34972.readSwitch() !"
      (write (cat (Lit "ROUT:CLOS " :: scanList)) ;;;
       (if negb (Py.eq delay (Py.Int 0)) then time_sleep delay else ret tt) ;;;
       reading <- ask [Lit "READ?"] ;;
       write (cat (Lit "ROUT:OPEN " :: scanList)) ;;;
       ret reading) ;;
    volt <- reraising "Daq34972.readSwitch() exception in conversion to float !"
              (lift (Py.float_of_string reading)) ;;
    ret (VNum (Py.Float volt)).

(** [startOverlapped(period, total)] *)
Definition startOverlapped (period total : Py.num) : M (H := H) bool :=
  reraising "Exception in Daq34972.startOverlapped() !"
    (write [Lit ":TRIG:SOUR BUS;"] ;;;
     quotient <- lift (Py.div total period) ;;
     write (cat [Lit ":SAMP:COUN "; Repr quotient; Lit ";"]) ;;;
     write [Lit ":SAMP:SOUR TIM;"] ;;;
     write (cat [Lit ":SAMP:TIM "; str_num period; Lit ";"]) ;;;
     write [Lit ":INIT:IMM;"] ;;;
     write [Lit "*TRG;"]) ;;;
  ret true.

(** One pass of the polling loop of [waitOverlappedDone]: [Some true] is
    [break], [Some false] is [return False], [None] goes round again. *)
Definition pollOnce (count timeout : Py.num) (startTime : float)
    : M (H := H) (option bool) :=
  reached <- reraising "Exception in Daq34972.waitOverlappedDone() polling !"
    (measured <- ask [Lit ":DATA:POIN?;"] ;;
     let measured := Py.strip measured in
     measured <- lift (Py.int measured) ;;
     ret (Py.eq (Py.Int measured) count)) ;;
  if reached then ret (Some true)
  else
    now <- time_time ;;
    if Py.gt (Py.Float (now - startTime)) timeout then
      print "Daq34972.waitOverlappedDone() timeout !" ;;; ret (Some false)
    else ret None.

(** [while True: ...] *)
Fixpoint poll (fuel : nat) (count timeout : Py.num) (startTime : float)
    : partial H bool :=
  fun w =>
    match fuel with
    | O => None
    | S fuel' =>
        match pollOnce count timeout startTime w with
        | (Ret (Some b), w') => Some (Ret b, w')
        | (Ret None, w') => poll fuel' count timeout startTime w'
        | (Raise e, w') => Some (Raise e, w')
        end
    end.

(** The block decoder: what the draining loop does with one reply.
    [None] is [return False]. *)
Definition decodeBlock (reading : string) : M (H := H) (option float) :=
  first <- lift (Py.index reading 0) ;;
  if negb (String.eqb first "#") then
    print "Daq34972.DLB format error - # expected !" ;;; ret None
  else
    reading <- lift (after_block_header reading) ;;
    let reading := Py.strip reading in
    rdg <- reraising
             "Daq34972.waitOverlappedDone() Exception in conversion to float !"
             (lift (Py.float_of_string reading)) ;;
    ret (Some rdg).

(** [for i in range(0, count): ...; return samples], with [n] passes to
    go. *)
Fixpoint drain (n : nat) (samples : list value) : M (H := H) value :=
  match n with
  | O => ret (VList samples)
  | S n' =>
      reading <- reraising "Daq34972.Reading results failed !"
                   (ask [Lit "R? 1;"]) ;;
      decoded <- decodeBlock reading ;;
      match decoded with
      | None => ret (VBool false)
      | Some rdg => drain n' (samples ++ [VNum (Py.Float rdg)])
      end
  end.

Definition waitOverlappedDone (fuel : nat) (count timeout : Py.num)
    : partial H value :=
  fun w =>
    let (started, w0) := time_time w in
    match started with
    | Raise e => Some (Raise e, w0)
    | Ret startTime =>
        match poll fuel count timeout startTime w0 with
        | None => None
        | Some (Raise e, w1) => Some (Raise e, w1)
        | Some (Ret false, w1) => Some (Ret (VBool false), w1)
        | Some (Ret true, w1) =>
            Some ((n <- lift (range_length count) ;; drain n []) w1)
        end
    end.

(** [controlSwitch(switch, state)] *)
Definition controlSwitch (switch : Z) (state : bool) : M (H := H) bool :=
  if negb ((101 <=? switch) && (switch <=? 399)) then
    print "Daq34972.controlSwitch() illegal switch number !" ;;; ret false
  else
    let scanList := cat [Lit "(@"; Lit (Py.str_int switch); Lit ")"] in
    let cmd := if state then cat (Lit "ROUT:CLOS " :: scanList)
               else cat (Lit "ROUT:OPEN " :: scanList) in
    reraising "Exception in Daq34972.controlSwitch() !" (write cmd) ;;;
    ret true.

(** [configAcFilter(scanList, freq)] *)
Definition configAcFilter (scanList : string) (freq : Py.num)
    : M (H := H) bool :=
  ok <- checkList scanList ;;
  if Bool.eqb ok false then
    print "Daq34972.configAcFilter() illegal scan list !" ;;; ret false
  else
    let scanList := cat [Lit "(@"; Lit scanList; Lit ")"] in
    if Py.lt freq (Py.Int 3) then
      print "Daq34972.configAcFilter() frequency too low !" ;;; ret false
    else
      reraising "Exception in Daq34972.configAcFilter() !"
        (write (cat ([Lit "SENS:VOLT:AC:BAND "; str_num freq; Lit ","]
                       ++ scanList))) ;;;
      ret true.

End Methods.
End Daq34972.

(* ================================================================== *)
(** * cdvm34411.py *)
(* ================================================================== *)

Module Dvm34411.
Section Methods.
Context {H : Type} {T : Transport H}.

Definition ranges : list (string * list Py.num) :=
  [ ("CAP", [Py.Float 1e-9; Py.Float 1e-5]);
    ("CURR:DC", [Py.Float 1e-5; Py.Float 3]);
    ("CURR:AC", [Py.Float 1e-5; Py.Float 3]);
    ("FRES", [Py.Int 100; Py.Float 1e9]);
    ("RES", [Py.Int 100; Py.Float 1e9]);
    ("VOLT:DC", [Py.Float 0.1; Py.Float 1000]);
    ("VOLT:AC", [Py.Float 0.1; Py.Float 750]);
    ("FREQ", []);
    ("PER", []);
    ("CON", []);
    ("DIOD", []);
    ("TEMP", []) ].

Definition noRange : list string := ["CON"; "DIOD"; "FREQ"; "PER"; "TEMP"].

Definition hasNplc : list string :=
  ["VOLT:DC"; "CURR:DC"; "RES"; "FRES"; "TEMP"].

(** [config(func, rng, nplc, aZero)], with the same chained comparison
    in its first test as [Daq34972.configScan]. *)
Definition config (func : string) (rng : arg) (nplc : Py.num)
    (aZero : bool) : M (H := H) bool :=
  let func := Py.upper func in
  let keys := map fst ranges in
  if among func keys && list_eq_bool keys false then
    print "Dvm34411.config() - illegal function !" ;;; ret false
  else
    checked <-
      (if Bool.eqb (among func noRange) false then
         if arg_is rng "AUTO" then
           ret (inr (cat [Lit " "; str_arg (AStr ":AUTO")]))
         else
           bounds <- lift (lookup ranges func) ;;
           mm <- lift (unpack2 bounds) ;;
           below <- lift (arg_lt rng (fst mm)) ;;
           above <- (if below then ret true else lift (arg_gt rng (snd mm))) ;;
           if above then
             print "Dvm34411.config() illegal range !" ;;; ret (inl false)
           else ret (inr (cat [Lit " "; str_arg rng]))
       else ret (inr [str_arg rng])) ;;
    match checked with
    | inl b => ret b
    | inr rng =>
        if Bool.eqb (among func hasNplc) true
           && (Py.lt nplc (Py.Float 0.001) || Py.gt nplc (Py.Int 100)) then
          print "Dvm34411:config() illegal NPLC !" ;;; ret false
        else
          reraising "Dvm34411.config() sending configuration failed !"
            (write (cat [Lit "FUNC:ON "; Lit dquote; Lit func; Lit dquote]) ;;;
             time_sleep (Py.Float 0.2) ;;;
             (if Bool.eqb (among func noRange) false then
                write (cat ([Lit func; Lit ":RANGE"] ++ rng)) ;;;
                time_sleep (Py.Float 0.2)
              else ret tt) ;;;
             (if Bool.eqb (among func hasNplc) true then
                write (cat [Lit func; Lit ":NPLC "; str_num nplc])
              else ret tt) ;;;
             (if Bool.eqb (among func ["VOLT:DC"; "CURR:DC"; "RES"; "TEMP"])
                          true then
                write (cat [Lit func; Lit ":ZERO:AUTO ";
                            Lit (if aZero then "1" else "0")])
              else ret tt)) ;;;
          ret true
    end.

(** [startOverlapped(period, total)] *)
Definition startOverlapped (period total : Py.num) : M (H := H) bool :=
  reraising "Dvm34411.startOverlapped() failed !"
    (write [Lit ":TRIG:SOUR BUS;"] ;;;
     quotient <- lift (Py.div total period) ;;
     write (cat [Lit ":SAMP:COUN "; Repr quotient; Lit ";"]) ;;;
     write [Lit ":SAMP:SOUR TIM;"] ;;;
     write (cat [Lit ":SAMP:TIM "; str_num period; Lit ";"]) ;;;
     write [Lit ":INIT:IMM;"] ;;;
     write [Lit "*TRG;"]) ;;;
  ret true.

Definition pollOnce (count timeout : Py.num) (startTime : float)
    : M (H := H) (option bool) :=
  reached <- reraising "Dvm34411.waitOverlappedDone() polling failed !"
    (measured <- ask [Lit ":DATA:POIN?;"] ;;
     let measured := Py.strip measured in
     measured <- lift (Py.int measured) ;;
     ret (Py.eq (Py.Int measured) count)) ;;
  if reached then ret (Some true)
  else
    now <- time_time ;;
    if Py.gt (Py.Float (now - startTime)) timeout then
      print "Dvm34411.waitOverlappedDone() timeout !" ;;; ret (Some false)
    else ret None.

Fixpoint poll (fuel : nat) (count timeout : Py.num) (startTime : float)
    : partial H bool :=
  fun w =>
    match fuel with
    | O => None
    | S fuel' =>
        match pollOnce count timeout startTime w with
        | (Ret (Some b), w') => Some (Ret b, w')
        | (Ret None, w') => poll fuel' count timeout startTime w'
        | (Raise e, w') => Some (Raise e, w')
        end
    end.

(** The block decoder of this wrapper keeps the payload as text. *)
Definition decodeBlock (reading : string) : M (H := H) (option string) :=
  first <- lift (Py.index reading 0) ;;
  if negb (String.eqb first "#") then
    print "Dvm34411.DLB format error - # expected !" ;;; ret None
  else
    reading <- lift (after_block_header reading) ;;
    ret (Some (Py.strip reading)).

Fixpoint drain (n : nat) (samples : list value) : M (H := H) value :=
  match n with
  | O => ret (VList samples)
  | S n' =>
      reading <- reraising "Dvm34411.Reading results failed !"
                   (ask [Lit "R? 1;"]) ;;
      decoded <- decodeBlock reading ;;
      match decoded with
      | None => ret (VBool false)
      | Some payload => drain n' (samples ++ [VStr payload])
      end
  end.

Definition waitOverlappedDone (fuel : nat) (count timeout : Py.num)
    : partial H value :=
  fun w =>
    let (started, w0) := time_time w in
    match started with
    | Raise e => Some (Raise e, w0)
    | Ret startTime =>
        match poll fuel count timeout startTime w0 with
        | None => None
        | Some (Raise e, w1) => Some (Raise e, w1)
        | Some (Ret false, w1) => Some (Ret (VBool false), w1)
        | Some (Ret true, w1) =>
            Some ((n <- lift (range_length count) ;; drain n []) w1)
        end
    end.

(** One pass of the polling loop of [read]. *)
Definition readPollOnce (timeout : Py.num) (startTime : float)
    : M (H := H) (option bool) :=
  reached <- reraising "Dvm34411:read() polling failed !"
    (measured <- ask [Lit "DATA:POIN?"] ;;
     let measured := Py.strip measured in
     measured <- lift (Py.int measured) ;;
     ret (measured =? 1)) ;;
  if reached then ret (Some true)
  else
    now <- time_time ;;
    if Py.gt (Py.Float (now - startTime)) timeout then
      print "Dvm34411:read() timeout !" ;;; ret (Some false)
    else ret None.

Fixpoint readPoll (fuel : nat) (timeout : Py.num) (startTime : float)
    : partial H bool :=
  fun w =>
    match fuel with
    | O => None
    | S fuel' =>
        match readPollOnce timeout startTime w with
        | (Ret (Some b), w') => Some (Ret b, w')
        | (Ret None, w') => readPoll fuel' timeout startTime w'
        | (Raise e, w') => Some (Raise e, w')
        end
    end.

(** The part of [read] inside its outer [try]: the reply to ['R? 1;'],
    or [None] for the [return False] of a timeout. *)
Definition readAcquire (fuel : nat) (timeout : Py.num)
    : partial H (option string) :=
  fun w =>
    match
      (write [Lit "SAMP:COUN 1"] ;;;
       write [Lit "TRIG:SOUR BUS"] ;;;
       write [Lit "TRIG:COUN 1"] ;;;
       write [Lit "INIT:IMM"] ;;;
       write [Lit "*TRG"] ;;;
       time_time) w
    with
    | (Raise e, w0) => Some (Raise e, w0)
    | (Ret startTime, w0) =>
        match readPoll fuel timeout startTime w0 with
        | None => None
        | Some (Raise e, w1) => Some (Raise e, w1)
        | Some (Ret false, w1) => Some (Ret None, w1)
        | Some (Ret true, w1) =>
            Some ((time_sleep (Py.Int 1) ;;;
                   reading <- ask [Lit "R? 1;"] ;;
                   ret (Some reading)) w1)
        end
    end.

(** [read()], with [self.timeout] as [timeout]. *)
Definition read (fuel : nat) (timeout : Py.num) : partial H value :=
  fun w =>
    match readAcquire fuel timeout w with
    | None => None
    | Some (Raise e, w1) =>
        Some (Raise e, snd (print "Dvm34411.read() failed !" w1))
    | Some (Ret None, w1) => Some (Ret (VBool false), w1)
    | Some (Ret (Some reading), w1) =>
        Some
          ((first <- lift (Py.index reading 0) ;;
            if negb (String.eqb first "#") then
              print "Dvm34411.read() DLB format error - # expected !" ;;;
              ret (VBool false)
            else
              reading <- lift (after_block_header reading) ;;
              rdg <- lift (Py.float_of_string reading) ;;
              ret (VNum (Py.Float rdg))) w1)
    end.

End Methods.
End Dvm34411.

(* ================================================================== *)
(** * cdaq3706.py: channel lists *)
(* ================================================================== *)

Module Daq3706.
Section Methods.
Context {H : Type} {T : Transport H}.

(** [self.slots]: the card type found in each slot by [scanSlots]. *)
Variable slots : list string.

(** [self.slots[i]] *)
Definition slot_type (i : Z) : Py.exn + string :=
  if i <? 0 then
    match nth_error (rev slots) (Z.to_nat (- i - 1)) with
    | Some s => inr s
    | None => inl Py.IndexError
    end
  else
    match nth_error slots (Z.to_nat i) with
    | Some s => inr s
    | None => inl Py.IndexError
    end.

(** The test of one card type: switches [1..top] and the backplane
    [911..916]. *)
Definition on_card (top switch : Z) : bool :=
  ((switch <=? top) && (switch >=? 1)) || ((911 <=? switch) && (switch <=? 916)).

Definition checkSwitchNumber (switch : Z) : M (H := H) bool :=
  if negb (Z.of_nat (List.length slots) =? 6) then
    print "Daq3706.checkSwitchNumber() - No cards in slots detected !" ;;;
    ret false
  else
    let string := Py.str_int switch in
    first <- lift (Py.index string 0) ;;
    slot <- lift (Py.int first) ;;
    switch <- lift (Py.int (Py.slice_from 1 string)) ;;
    if (slot =? 0) || (slot >? 6) then
      print "Daq3706.checkSwitchNumber() - Invalid slot number !" ;;;
      ret false
    else
      card <- lift (slot_type (slot - 1)) ;;
      if String.eqb card "Empty Slot" then
        print "Daq3706.checkSwitchNumber() - Empty slot addressed !" ;;;
        ret false
      else if String.eqb card "3722" then
        if on_card 96 switch then ret true
        else
          print "Daq3706.checkSwitchNumber() - Invalid switch number !" ;;;
          raise Py.NameError                      (* return False4 *)
      else if String.eqb card "3720" then
        if on_card 60 switch then ret true
        else
          print "Daq3706.checkSwitchNumber() - Invalid switch number !" ;;;
          ret false
      else if String.eqb card "3721" then
        if on_card 42 switch then ret true
        else
          print "Daq3706.checkSwitchNumber() - Invalid switch number !" ;;;
          ret false
      else if String.eqb card "3723" then
        if on_card 60 switch then ret true
        else
          print "Daq3706.checkSwitchNumber() - Invalid switch number !" ;;;
          ret false
      else
        print "Daq3706.checkSwitchNumber() - Unsupported slot type !" ;;;
        ret false.

(** The body of the loop of [checkList].  The single-channel branch calls
    a method named [chsckSwitchNumber], which the class does not have. *)
Definition checkItem (item : string) : M (H := H) (option bool) :=
  let item := Py.strip item in
  if negb (Py.find ":" item =? -1) then
    match Py.split ":" item with
    | [fromCh; toCh] =>
        fromCh <- lift (Py.int fromCh) ;;
        toCh <- lift (Py.int toCh) ;;
        if fromCh >? toCh then
          print "Daq3706.checkList() invalid range !" ;;; ret (Some false)
        else
          okFrom <- checkSwitchNumber fromCh ;;
          bad <- (if negb okFrom then ret true
                  else okTo <- checkSwitchNumber toCh ;; ret (negb okTo)) ;;
          if bad then
            print "Daq3706.checkList() invalid channel number !" ;;;
            ret (Some false)
          else ret None
    | _ => raise Py.ValueError
    end
  else
    chan <- lift (Py.int item) ;;
    raise Py.AttributeError.

Definition checkList (chlist : string) : M (H := H) bool :=
  let items := Py.split "," chlist in
  for_each checkItem items (ret true).

(** [controlSwitch(switch, state)] *)
Definition controlSwitch (switch : Z) (state : bool) : M (H := H) bool :=
  ok <- checkSwitchNumber switch ;;
  if negb ok then
    print "Daq3706.controlSwitch() illegal switch number !" ;;; ret false
  else
    let cmd :=
      if state then
        cat [Lit "channel.close("; Lit dquote; Lit (Py.str_int switch);
             Lit dquote; Lit ")"]
      else
        cat [Lit "channel.open("; Lit dquote; Lit (Py.str_int switch);
             Lit dquote; Lit ")"] in
    reraising "Exception in Daq3706.controlSwitch() !" (write cmd) ;;;
    ret true.

(** [configAcFilter(scanList, freq)] *)
Definition configAcFilter (scanList : string) (freq : Py.num)
    : M (H := H) bool :=
  ok <- checkList scanList ;;
  if Bool.eqb ok false then
    print "Daq3706.configAcFilter() illegal scan list !" ;;; ret false
  else
    let scanList := cat [Lit "(@"; Lit scanList; Lit ")"] in
    if Py.lt freq (Py.Int 3) then
      print "Daq3706.configAcFilter() frequency too low !" ;;; ret false
    else
      reraising "Exception in Daq3706.configAcFilter() !"
        (write (cat ([Lit "SENS:VOLT:AC:BAND "; str_num freq; Lit ","]
                       ++ scanList))) ;;;
      ret true.

Definition ranges : list (string * list Py.num) :=
  [ ("accurrent", [Py.Int 0; Py.Float 3.1]);
    ("acvolts", [Py.Int 0; Py.Float 303]);
    ("commonsideohms", [Py.Int 0; Py.Float 120e6]);
    ("dccurrent", [Py.Int 0; Py.Float 3.1]);
    ("dcvolts", [Py.Int 0; Py.Float 303]);
    ("fourwireohms", [Py.Int 0; Py.Float 120e6]);
    ("frequency", []);
    ("period", []);
    ("temperature", []);
    ("twowireohms", [Py.Int 0; Py.Float 120e6]) ].

Definition noRange : list string := ["period"; "temperature"; "frequency"].

Definition noNplc : list string := ["frequency"; "period"].

(** [configDmm(func, rng, nplc)].  [rng] and [nplc] become [None] for a
    function without them; the first test is the chained comparison of
    the other wrappers. *)
Definition configDmm (func : string) (rng : arg) (nplc : Py.num)
    : M (H := H) bool :=
  let func := Py.lower func in
  let keys := map fst ranges in
  if among func keys && list_eq_bool keys false then
    print "Daq3706.configDmm() - illegal function !" ;;; ret false
  else
    checked <-
      (if Bool.eqb (among func noRange) false then
         if arg_is rng "auto" then ret (inr (Some (AStr "auto")))
         else
           bounds <- lift (lookup ranges func) ;;
           mm <- lift (unpack2 bounds) ;;
           below <- lift (arg_lt rng (fst mm)) ;;
           above <- (if below then ret true else lift (arg_gt rng (snd mm))) ;;
           if above then
             print "Daq3706.configDmm() illegal range !" ;;; ret (inl false)
           else ret (inr (Some rng))
       else ret (inr None)) ;;
    match checked with
    | inl b => ret b
    | inr rng =>
        if Bool.eqb (among func noNplc) false
           && (Py.lt nplc (Py.Float 0.2) || Py.gt nplc (Py.Int 200)) then
          print "Daq3706.configDmm() illegal NPLC !" ;;; ret false
        else
          let nplc := if Bool.eqb (among func noNplc) false then Some nplc
                      else None in
          reraising "Exception in Daq3706.configDmm() !"
            (write (cat [Lit "dmm.func="; Lit dquote; Lit func; Lit dquote]) ;;;
             (match rng with
              | Some rng => write (cat [Lit "dmm.range="; str_arg rng])
              | None => ret tt
              end) ;;;
             (match nplc with
              | Some nplc => write (cat [Lit "dmm.nplc="; str_num nplc])
              | None => ret tt
              end)) ;;;
          ret true
    end.

(** [try: m  except: print(line); return v] *)
Definition catching {A} (line : string) (v : A) (m : M (H := H) A)
    : M (H := H) A :=
  fun w =>
    match m w with
    | (Raise _, w') => (Ret v, snd (print line w'))
    | r => r
    end.

(** [read()]: the reading, or [False] when the reply is no number. *)
Definition read : M (H := H) value :=
  reslt <- reraising "Daq3706.read() failed !"
    (write [Lit "buffer = dmm.makebuffer(1)"] ;;;
     write [Lit "dmm.measurecount = 1"] ;;;
     ask [Lit "print(dmm.measure(buffer))"]) ;;
  catching "Daq3706.read() reading conversion to float failed !" (VBool false)
    (write [Lit "buffer=nil"] ;;;
     reading <- lift (Py.float_of_string reslt) ;;
     ret (VNum (Py.Float reading))).

(** [readSwitch(switch, delay)] *)
Definition readSwitch (switch : Z) (delay : Py.num) : M (H := H) value :=
  ok <- checkSwitchNumber switch ;;
  if negb ok then
    print "Daq3706.readSwitch() illegal switch number !" ;;; ret (VBool false)
  else
    reraising "Exception in Daq3706.readSwitch() !"
      (write (cat [Lit "channel.close("; Lit dquote; Lit (Py.str_int switch);
                   Lit dquote; Lit ")"]) ;;;
       (if negb (Py.eq delay (Py.Int 0)) then time_sleep delay else ret tt) ;;;
       reading <- read ;;
       write (cat [Lit "channel.open("; Lit dquote; Lit (Py.str_int switch);
                   Lit dquote; Lit ")"]) ;;;
       ret reading).

End Methods.

Section Scan.
Context {H : Type} {T : Transport H}.

(** The card type in one answer to [print(slot[i].idn)]. *)
Definition slotType (idn : string) : Py.exn + string :=
  let items := Py.split "," idn in
  match items with
  | first :: rest =>
      if String.eqb first "Pseudo" then
        match rest with
        | second :: _ => inr (Py.strip second)
        | [] => inl Py.IndexError
        end
      else inr (Py.strip first)
  | [] => inl Py.IndexError
  end.

(** The loop of [scanSlots] over the slot numbers [todo], with
    [self.slots] and [anySlot] as they stand; [self.slots] is returned
    however the loop ends. *)
Fixpoint scanLoop (todo : list Z) (slots : list string) (anySlot : bool)
    (w : world H) : outcome bool * list string * world H :=
  match todo with
  | [] => (Ret anySlot, slots, w)
  | i :: r =>
      match ask (cat [Lit "print(slot["; Lit (Py.str_int i); Lit "].idn)"]) w with
      | (Raise e, w') => (Raise e, slots, w')
      | (Ret idn, w') =>
          match slotType idn with
          | inl e => (Raise e, slots, w')
          | inr t =>
              scanLoop r (slots ++ [t])
                (if negb (String.eqb t "Empty Slot") then true else anySlot) w'
          end
      end
  end.

(** [scanSlots()]: the result and the new [self.slots]. *)
Definition scanSlots (w : world H) : outcome bool * list string * world H :=
  match scanLoop [1; 2; 3; 4; 5; 6] [] false w with
  | (Ret anySlot, slots, w') =>
      if negb anySlot then
        (Ret false, slots, snd (print "No card detected in slots !" w'))
      else (Ret true, slots, w')
  | r => r
  end.

End Scan.
End Daq3706.

(* ================================================================== *)
(** * testlog.py: the log *)
(* ================================================================== *)

Module TestLog.
Section Methods.
Context {H : Type}.

(** [self.file.write(line)] on the file of the log: a closed file
    raises; failures of the operating system are not modelled. *)
Definition file_write (f : pyfile) (line : text) : M (H := H) unit :=
  if closed f then raise Py.ValueError
  else
    fun w =>
      (Ret tt,
       with_logfile (Some {| closed := false; lines := lines f ++ [line] |}) w).

(** The common tail of [logError] and [logText]. *)
Definition to_file (line : text) : M (H := H) unit :=
  fun w =>
    match logfile w with
    | None => (Ret tt, w)
    | Some f =>
        reraising "Writing to log failed !"
          (file_write f (cat (line ++ [Lit newline]))) w
    end.

Definition logError (line : text) : M (H := H) unit :=
  let line := cat (Lit "**** Error: " :: line) in
  print_text line ;;;
  to_file line.

Definition logText (line : text) : M (H := H) unit :=
  print_text line ;;;
  to_file line.

(** [closeLog()]: the file is closed and stays in [self.file]; closing
    is taken not to fail. *)
Definition closeLog : M (H := H) unit :=
  fun w =>
    match logfile w with
    | None => (Ret tt, w)
    | Some f =>
        (Ret tt, with_logfile (Some {| closed := true; lines := lines f |}) w)
    end.

(** [logValue(name, v, unit)] *)
Definition logValue (name : string) (v : Py.num) (unit : string)
    : M (H := H) Datatypes.unit :=
  let line := cat [Lit "       "; Lit (Py.ljust 16 name); Lit " = ";
                   Fmt "%f" v; Lit " "; Lit unit] in
  print_text line ;;;
  to_file line.

End Methods.
End TestLog.

(* ================================================================== *)
(** * error.py: the error counter and the limit check *)
(* ================================================================== *)

Module Errors.
Section Methods.
Context {H : Type}.

(** [Errors()] : a new run starts with a cleared counter. *)
Definition init : M (H := H) unit :=
  fun w => (Ret tt, with_errorCount 0 w).

Definition bumpError : M (H := H) unit :=
  fun w => (Ret tt, with_errorCount (errorCount w + 1) w).

Definition getErrorCount : M (H := H) Z :=
  fun w => (Ret (errorCount w), w).

End Methods.
End Errors.

Module Error.
Section Functions.
Context {H : Type} {T : Transport H}.

(** A number under [%X]: a float raises. *)
Definition hex (n : Py.num) : Py.exn + piece :=
  match n with
  | Py.Int _ => inr (Fmt "%X" n)
  | Py.Float _ => inl Py.TypeError
  end.

(** [chkLimits(name, value, Min, Max, unit, Hex)] *)
Definition chkLimits (name : string) (value Min Max : Py.num)
    (unit : string) (Hex : bool) : M (H := H) bool :=
  if negb (Py.lt Min value && Py.lt value Max) then
    line <-
      (if Hex then
         v <- lift (hex value) ;;
         lo <- lift (hex Min) ;;
         hi <- lift (hex Max) ;;
         ret (cat [Lit name; Lit ":0x"; v; Lit " OUT OF LIMITS (0x"; lo;
                   Lit ", 0x"; hi; Lit "). Test Failed !"])
       else
         ret (cat [Lit name; Lit ":"; Fmt "%F" value; Lit " "; Lit unit;
                   Lit " OUT OF LIMITS ("; Fmt "%F" Min; Lit ", ";
                   Fmt "%f" Max; Lit "). Test Failed !"])) ;;
    TestLog.logError line ;;;
    Errors.bumpError ;;;
    ret false
  else
    line <-
      (if Hex then
         v <- lift (hex value) ;;
         lo <- lift (hex Min) ;;
         hi <- lift (hex Max) ;;
         ret (cat [Lit "    "; Lit name; Lit ":0x"; v;
                   Lit " expected range from:0x"; lo; Lit " To: 0x"; hi;
                   Lit ". Test PASS !"])
       else
         ret (cat [Lit "    "; Lit name; Lit ":"; Fmt "%F" value; Lit " ";
                   Lit unit; Lit " expected range From:"; Fmt "%F" Min;
                   Lit " "; Lit unit; Lit " To: "; Fmt "%F" Max; Lit " ";
                   Lit unit; Lit ". Test PASS !"])) ;;
    TestLog.logText line ;;;
    ret true.

(** A returned value used as a number: [False] counts as 0. *)
Definition as_num (v : value) : Py.exn + Py.num :=
  match v with
  | VBool b => inr (Py.Int (if b then 1 else 0))
  | VNum n => inr n
  | _ => inl Py.TypeError
  end.

(** [measureAndCheckSwich(switch, name, loLim, hiLim, mod)] *)
Definition measureAndCheckSwich (switch name : string) (loLim hiLim : Py.num)
    (mod_ : string) : M (H := H) Py.num :=
  Daq34972.configScan switch mod_ (AStr "AUTO") (Py.Int 1) ;;;
  v <- Daq34972.read ;;
  chkLimits name v loLim hiLim "V" false ;;;
  ret v.

(** [switchAndCheck(sw, name, loLim, hiLim, unit, delay)] *)
Definition switchAndCheck (sw : Z) (name : string) (loLim hiLim : Py.num)
    (unit : string) (delay : Py.num) : M (H := H) value :=
  v <- Daq34972.readSwitch sw delay ;;
  n <- lift (as_num v) ;;
  chkLimits name n loLim hiLim "V" false ;;;
  ret v.

End Functions.
End Error.

(* ================================================================== *)
(** * A scripted instrument *)
(* ================================================================== *)

(** An instrument for concrete runs: it records what it is sent and
    answers queries from a prepared list; a query with nothing left to
    answer raises, as a VISA read that times out does. *)
Record Sim : Type := {
  sent : list text;
  inbox : list string
}.

#[export] Instance Sim_Transport : Transport Sim := {
  visa_write cmd h :=
    (Ret tt, {| sent := sent h ++ [cmd]; inbox := inbox h |});
  visa_ask cmd h :=
    match inbox h with
    | [] => (Raise Py.VisaIOError, {| sent := sent h ++ [cmd]; inbox := [] |})
    | r :: rest => (Ret r, {| sent := sent h ++ [cmd]; inbox := rest |})
    end
}.

(** A fresh process around a session: nothing printed, no log file, no
    error counted. *)
Definition boot {H : Type} (h : H) (clk : nat -> float) : world H :=
  {| handle := h; console := []; clock := clk; ticks := 0;
     logfile := None; errorCount := 0 |}.

(** A bench whose instrument will answer [replies] and whose clock reads
    0, 1, 2, ... seconds. *)
Definition bench (replies : list string) : world Sim :=
  boot {| sent := []; inbox := replies |}
       (fun n => SF2Prim (binary_normalize prec emax (Z.of_nat n) 0 false)).

(* ================================================================== *)
(** * The block decoder as the specification words it *)
(* ================================================================== *)

Module Spec.

Inductive block_error : Type :=
  | MissingBlockMarker | InvalidDigitCount | InvalidLength | NotANumber.

(** A byte count: one or more decimal digits and nothing else. *)
Definition byte_count (s : string) : option nat :=
  match Py.take_digits s 0 0 with
  | (v, S _, EmptyString) => Some (Z.to_nat v)
  | _ => None
  end.

(** Stated from the specification, section 4.4: ['#'], one digit [d],
    [d] digits that form the byte count [L], then exactly [L] bytes of
    payload, trimmed and parsed as a number. *)
Definition decodeBlock (raw : string) : block_error + float :=
  match raw with
  | String "#" after =>
      match after with
      | String c rest =>
          if Py.is_digit c then
            let d := Z.to_nat (Py.digit_val c) in
            match byte_count (substring 0 d rest) with
            | None => inl InvalidLength
            | Some L =>
                let available := Py.slice_from d rest in
                if (String.length available <? L)%nat then inl InvalidLength
                else
                  match Py.float_of_string (Py.strip (substring 0 L available)) with
                  | inr x => inr x
                  | inl _ => inl NotANumber
                  end
            end
          else inl InvalidDigitCount
      | EmptyString => inl InvalidDigitCount
      end
  | _ => inl MissingBlockMarker
  end.

End Spec.

(* ================================================================== *)
(** * Vocabulary of the statements *)
(* ================================================================== *)

Section Vocabulary.
Context {H : Type} {T : Transport H}.

(** The session accepts the commands [cmds] one after the other and is
    then in the state returned. *)
Fixpoint accepts (cmds : list text) (h : H) : option H :=
  match cmds with
  | [] => Some h
  | c :: r =>
      match visa_write c h with
      | (Ret _, h') => accepts r h'
      | (Raise _, _) => None
      end
  end.

(** The answers of the instrument to [n] successive queries [cmd], first
    answer first, and the state of the session after them. *)
Fixpoint answers (cmd : text) (n : nat) (h : H) : option (list string * H) :=
  match n with
  | O => Some ([], h)
  | S n' =>
      match visa_ask cmd h with
      | (Ret r, h') =>
          match answers cmd n' h' with
          | Some (rs, h'') => Some (r :: rs, h'')
          | None => None
          end
      | (Raise _, _) => None
      end
  end.

(** The log takes a line: it has no file yet, or its file is open. *)
Definition log_ready (w : world H) : bool :=
  match logfile w with
  | None => true
  | Some f => negb (closed f)
  end.

(** [chkLimits(name, value, Min, Max)], the call with its defaults. *)
Definition check (name : string) (value Min Max : Py.num) : M (H := H) bool :=
  Error.chkLimits name value Min Max "V" false.

(** What a test run can do with the error counter: every function of
    [error.py] that reaches it, and the two methods of [Errors]. *)
Inductive operation : Type :=
  | BumpError
  | GetErrorCount
  | ChkLimits (name : string) (value Min Max : Py.num) (unit : string)
              (Hex : bool)
  | MeasureAndCheckSwich (switch name : string) (loLim hiLim : Py.num)
                         (mod_ : string)
  | SwitchAndCheck (sw : Z) (name : string) (loLim hiLim : Py.num)
                   (unit : string) (delay : Py.num).

(** The process after an operation, however the operation ended. *)
Definition after (o : operation) (w : world H) : world H :=
  match o with
  | BumpError => snd (Errors.bumpError w)
  | GetErrorCount => snd (Errors.getErrorCount w)
  | ChkLimits name value Min Max unit Hex =>
      snd (Error.chkLimits name value Min Max unit Hex w)
  | MeasureAndCheckSwich switch name loLim hiLim mod_ =>
      snd (Error.measureAndCheckSwich switch name loLim hiLim mod_ w)
  | SwitchAndCheck sw name loLim hiLim unit delay =>
      snd (Error.switchAndCheck sw name loLim hiLim unit delay w)
  end.

Definition run (ops : list operation) (w : world H) : world H :=
  fold_left (fun w o => after o w) ops w.

(** A computation that leaves the error counter as it found it, and one
    that never lowers it, however it ends. *)
Definition keeps_count {A} (m : M (H := H) A) : Prop :=
  forall w, errorCount (snd (m w)) = errorCount w.

Definition grows_count {A} (m : M (H := H) A) : Prop :=
  forall w, errorCount w <= errorCount (snd (m w)).

(** The outcome of a run with fuel. *)
Definition fst_of {A} (r : option (outcome A * world H))
    : option (outcome A) :=
  option_map fst r.

(** A reply to ['R? 1;'] as a reading, when the decoder of [Daq34972]
    makes one of it. *)
Definition reading_of (reply : string) : option float :=
  match Py.index reply 0 with
  | inr first =>
      if String.eqb first "#" then
        match after_block_header reply with
        | inr payload =>
            match Py.float_of_string (Py.strip payload) with
            | inr x => Some x
            | inl _ => None
            end
        | inl _ => None
        end
      else None
  | inl _ => None
  end.

End Vocabulary.

(* ================================================================== *)
(** * visasim.py: the simulated VISA library *)
(* ================================================================== *)

Module VisaSim.

(** The resource manager: the keys of [self.devices] in the order of
    their insertion (the [Device] stored under a key carries that key as
    its [visaName]), and what the library has printed. *)
Record manager : Type := {
  devices : list string;
  shown : list text
}.

Definition show (line : list piece) (m : manager) : manager :=
  {| devices := devices m; shown := shown m ++ [cat line] |}.

(** [ResourceManager()] *)
Definition init : manager :=
  {| devices := []; shown := [[Lit "Resource manager created."]] |}.

(** [d[key] = value]: a key that is there keeps its place. *)
Definition dict_set (key : string) (d : list string) : list string :=
  if among key d then d else d ++ [key].

(** [d.pop(key)] *)
Definition dict_pop (key : string) (d : list string) : Py.exn + list string :=
  if among key d then inr (filter (fun k => negb (String.eqb key k)) d)
  else inl Py.KeyError.

(** [rm.get_instrument(visaName)]: the device is its name. *)
Definition get_instrument (visaName : string) (m : manager)
    : outcome string * manager :=
  (Ret visaName,
   show [Lit visaName; Lit " instrument created."]
     {| devices := dict_set visaName (devices m); shown := shown m |}).

(** [rm.close_instrument(visaName)] *)
Definition close_instrument (visaName : string) (m : manager)
    : outcome unit * manager :=
  match dict_pop visaName (devices m) with
  | inl e => (Raise e, m)
  | inr d =>
      (Ret tt,
       show [Lit visaName; Lit " instrument closed."]
         {| devices := d; shown := shown m |})
  end.

(** [rm.close()] *)
Definition close (m : manager) : outcome unit * manager :=
  (Ret tt, show [Lit "Resource manager closed."]
             {| devices := []; shown := shown m |}).

(** [Device.close()] of the device created under [visaName]. *)
Definition device_close (visaName : string) (m : manager)
    : outcome unit * manager :=
  close_instrument visaName m.

(** A device seen as a session: [write] prints the command, [ask]
    prints it and answers ['+2.34'].  The lines it prints are kept with
    the device. *)
Record device : Type := {
  visaName : string;
  printed : list text
}.

Definition device_write (cmd : text) (d : device) : outcome unit * device :=
  (Ret tt,
   {| visaName := visaName d;
      printed := printed d ++
        [cat ([Lit (visaName d); Lit ": written "; Lit dquote] ++ cmd
                ++ [Lit dquote])] |}).

Definition device_ask (cmd : text) (d : device) : outcome string * device :=
  (Ret "+2.34",
   {| visaName := visaName d;
      printed := printed d ++
        [cat ([Lit (visaName d); Lit ": asked "; Lit dquote] ++ cmd
                ++ [Lit dquote; Lit ", returned "; Lit dquote; Lit "+2.34";
                    Lit dquote])] |}).

#[export] Instance device_Transport : Transport device := {
  visa_write := device_write;
  visa_ask := device_ask
}.

End VisaSim.

(* ================================================================== *)
(** * More vocabulary *)
(* ================================================================== *)

(** A string of white space only. *)
Fixpoint all_space (s : string) : bool :=
  match s with
  | EmptyString => true
  | String c r => Py.is_space c && all_space r
  end.

(** The four card types that [Daq3706.checkSwitchNumber] knows, with the
    highest switch of each. *)
Definition cards : list (string * Z) :=
  [("3722", 96); ("3720", 60); ("3721", 42); ("3723", 60)].

Section MoreVocabulary.
Context {H : Type} {T : Transport H}.

(** A computation that leaves one component [proj] of the process as it
    found it, however it ends. *)
Definition keeps {X A} (proj : world H -> X) (m : M (H := H) A) : Prop :=
  forall w, proj (snd (m w)) = proj w.

(** A computation that has sent nothing when it returns [bad]. *)
Definition silent_on {A} (bad : A) (m : M (H := H) A) : Prop :=
  forall w, fst (m w) = Ret bad -> handle (snd (m w)) = handle w.

(** A computation that never returns [bad]. *)
Definition never_returns {A} (bad : A) (m : M (H := H) A) : Prop :=
  forall w, fst (m w) <> Ret bad.

(** One call of [chkLimits(name, value, Min, Max)]. *)
Record limit_check : Type := {
  lc_name : string;
  lc_value : Py.num;
  lc_min : Py.num;
  lc_max : Py.num
}.

(** [Min < value < Max] *)
Definition within (c : limit_check) : bool :=
  Py.lt (lc_min c) (lc_value c) && Py.lt (lc_value c) (lc_max c).

(** The checks [cs] made one after the other; the verdicts in order. *)
Fixpoint run_checks (cs : list limit_check) : M (H := H) (list bool) :=
  match cs with
  | [] => ret []
  | c :: r =>
      ok <- check (lc_name c) (lc_value c) (lc_min c) (lc_max c) ;;
      oks <- run_checks r ;;
      ret (ok :: oks)
  end.

(** A call of the log. *)
Inductive log_call : Type :=
  | LogText (line : text)
  | LogError (line : text)
  | LogValue (name : string) (v : Py.num) (unit : string).

Definition do_log (c : log_call) : M (H := H) unit :=
  match c with
  | LogText line => TestLog.logText line
  | LogError line => TestLog.logError line
  | LogValue name v unit => TestLog.logValue name v unit
  end.

(** The line that a call of the log shows. *)
Definition shown_line (c : log_call) : text :=
  match c with
  | LogText line => line
  | LogError line => cat (Lit "**** Error: " :: line)
  | LogValue name v unit =>
      cat [Lit "       "; Lit (Py.ljust 16 name); Lit " = "; Fmt "%f" v;
           Lit " "; Lit unit]
  end.

Fixpoint do_logs (cs : list log_call) : M (H := H) unit :=
  match cs with
  | [] => ret tt
  | c :: r => do_log c ;;; do_logs r
  end.

(** Every element is a float, every element is a string. *)
Definition is_float (v : value) : bool :=
  match v with VNum (Py.Float _) => true | _ => false end.

Definition is_str (v : value) : bool :=
  match v with VStr _ => true | _ => false end.

End MoreVocabulary.

(* ================================================================== *)
(** * Properties of the built-ins *)
(* ================================================================== *)

Example strip_inner : Py.strip "  a b  " = "a b".
Proof. reflexivity. Qed.

Example split_items :
  Py.split "," "101 , 201:205, 301: 306, 405"
  = ["101 "; " 201:205"; " 301: 306"; " 405"].
Proof. reflexivity. Qed.

Example int_leading_space : Py.int " 306" = inr 306.
Proof. reflexivity. Qed.

Example int_underscore : Py.int "1_000" = inr 1000.
Proof. reflexivity. Qed.

Example int_of_point : Py.int "5.0" = inl Py.ValueError.
Proof. reflexivity. Qed.

Example float_plain : Py.float_of_string "+1.234" = inr 1.234%float.
Proof. vm_compute. reflexivity. Qed.

Example float_exponent : Py.float_of_string "+1.2E3" = inr 1200%float.
Proof. vm_compute. reflexivity. Qed.

Example float_tenth : Py.float_of_string "0.1" = inr 0.1%float.
Proof. vm_compute. reflexivity. Qed.

Example float_half_even :
  Py.float_of_string "9007199254740993" = inr 9007199254740992%float.
Proof. vm_compute. reflexivity. Qed.

Example float_overflow : Py.float_of_string "1e400" = inr infinity.
Proof. vm_compute. reflexivity. Qed.

Example float_bare_exponent : Py.float_of_string "1e" = inl Py.ValueError.
Proof. vm_compute. reflexivity. Qed.

Example div_true : Py.div (Py.Int 5) (Py.Int 2) = inr 2.5%float.
Proof. vm_compute. reflexivity. Qed.

Example div_third : Py.div (Py.Int 1) (Py.Int 3) = inr (1 / 3)%float.
Proof. vm_compute. reflexivity. Qed.

Lemma find_lower_bound (c : ascii) (s : string) : -1 <= Py.find c s.
Proof.
  induction s as [|a s IH]; simpl; [lia|].
  destruct (Ascii.eqb a c); [lia|].
  destruct (Z.eqb_spec (Py.find c s) (-1)); lia.
Qed.

Lemma split_without_separator (c : ascii) (s : string) :
  Py.find c s = -1 -> Py.split c s = [s].
Proof.
  induction s as [|a s IH]; simpl; [reflexivity|].
  destruct (Ascii.eqb a c); [discriminate|].
  destruct (Z.eqb_spec (Py.find c s) (-1)) as [E|E].
  - intros _. rewrite (IH E). reflexivity.
  - pose proof (find_lower_bound c s). lia.
Qed.

Lemma split_pair_has_separator (c : ascii) (s a b : string) :
  Py.split c s = [a; b] -> (Py.find c s =? -1) = false.
Proof.
  intros E. destruct (Z.eqb_spec (Py.find c s) (-1)) as [F|F]; [|reflexivity].
  rewrite (split_without_separator _ _ F) in E. discriminate.
Qed.

(** The digit after ['#'] read as a number. *)
Lemma int_of_digit (c : ascii) :
  Py.is_digit c = true ->
  Py.int (String c EmptyString) = inr (Py.digit_val c).
Proof.
  destruct c as [[] [] [] [] [] [] [] []]; intros E;
    try discriminate E; reflexivity.
Qed.

(** ** Sequencing *)

Section MonadLaws.
Context {H : Type}.

Lemma bind_ret {A B} (a : A) (k : A -> M (H := H) B) (w : world H) :
  bind (ret a) k w = k a w.
Proof. reflexivity. Qed.

Lemma bind_returns {A B} (m : M (H := H) A) (k : A -> M B) (w w' : world H)
    (a : A) :
  m w = (Ret a, w') -> bind m k w = k a w'.
Proof. intros E. unfold bind. rewrite E. reflexivity. Qed.

Lemma bind_raises {A B} (m : M (H := H) A) (k : A -> M B) (w w' : world H)
    (e : Py.exn) :
  m w = (Raise e, w') -> bind m k w = (Raise e, w').
Proof. intros E. unfold bind. rewrite E. reflexivity. Qed.

Lemma reraising_returns {A} (line : string) (m : M (H := H) A)
    (w w' : world H) (a : A) :
  m w = (Ret a, w') -> reraising line m w = (Ret a, w').
Proof. intros E. unfold reraising. rewrite E. reflexivity. Qed.

Lemma for_each_passes {A R} (body : A -> M (H := H) (option R))
    (pre rest : list A) (after : M R) (w : world H) :
  (forall p, In p pre -> forall w', body p w' = (Ret None, w')) ->
  for_each body (pre ++ rest) after w = for_each body rest after w.
Proof.
  induction pre as [|p pre IH]; intros Hp; simpl; [reflexivity|].
  rewrite (bind_returns _ _ _ _ _ (Hp p (or_introl eq_refl) w)).
  apply IH. intros q Hq. apply Hp. right. exact Hq.
Qed.

End MonadLaws.

(* ================================================================== *)
(** * Channel lists *)
(* ================================================================== *)

Section ChannelLists.
Context {H : Type} {T : Transport H}.

(** What [Daq34972.checkList] does with a range item, by cases. *)
Lemma checkItem_range (item a b : string) (x y : Z) (w : world H) :
  Py.split ":" (Py.strip item) = [a; b] ->
  Py.int a = inr x -> Py.int b = inr y ->
  Daq34972.checkItem item w =
    if x >? y then
      (Ret (Some false),
       with_console
         (console w ++ [[Lit "Daq34972:checkList() invalid range !"]]) w)
    else if (101 <=? x) && (x <=? 399) && ((101 <=? y) && (y <=? 399)) then
      (Ret None, w)
    else
      (Ret (Some false),
       with_console
         (console w ++ [[Lit "Daq34972:checkList() invalid channel number !"]])
         w).
Proof.
  intros Hs Ha Hb. unfold Daq34972.checkItem.
  rewrite (split_pair_has_separator _ _ _ _ Hs), Hs. cbn [negb].
  rewrite Ha, Hb. cbn [lift bind ret].
  destruct (x >? y); [reflexivity|].
  destruct ((101 <=? x) && (x <=? 399) && ((101 <=? y) && (y <=? 399)));
    reflexivity.
Qed.

(** What [Daq34972.checkList] does with a single channel, by cases. *)
Lemma checkItem_single (item : string) (n : Z) (w : world H) :
  Py.find ":" (Py.strip item) = -1 ->
  Py.int (Py.strip item) = inr n ->
  Daq34972.checkItem item w =
    if (101 <=? n) && (n <=? 440) then (Ret None, w)
    else
      (Ret (Some false),
       with_console
         (console w ++ [[Lit "Daq34972:checkList() invalid channel number !"]])
         w).
Proof.
  intros Hf Hn. unfold Daq34972.checkItem.
  rewrite Hf, Hn, Z.eqb_refl. cbn [negb lift bind ret].
  destruct ((101 <=? n) && (n <=? 440)); reflexivity.
Qed.

(** A list of one item. *)
Lemma checkList_one (chlist : string) (w : world H) :
  Py.find "," chlist = -1 ->
  Daq34972.checkList chlist w =
    match Daq34972.checkItem chlist w with
    | (Ret (Some b), w') => (Ret b, w')
    | (Ret None, w') => (Ret true, w')
    | (Raise e, w') => (Raise e, w')
    end.
Proof.
  intros Hf. unfold Daq34972.checkList.
  rewrite (split_without_separator _ _ Hf). cbn [for_each]. unfold bind.
  destruct (Daq34972.checkItem chlist w) as [[[b|]|e] w']; reflexivity.
Qed.

(** A single channel that [int] rejects: the exception of [int] leaves
    [checkList], once the items before it have passed. *)
Lemma checkList_raises_on_item (chlist item : string)
    (pre post : list string) (e : Py.exn) (w : world H) :
  Py.split "," chlist = (pre ++ item :: post)%list ->
  (forall p, In p pre ->
     forall w' : world H, Daq34972.checkItem p w' = (Ret None, w')) ->
  Py.find ":" (Py.strip item) = -1 ->
  Py.int (Py.strip item) = inl e ->
  Daq34972.checkList chlist w = (Raise e, w).
Proof.
  intros Hitems Hpre Hf He. unfold Daq34972.checkList.
  rewrite Hitems, (for_each_passes _ _ _ _ _ Hpre). cbn [for_each].
  unfold bind at 1. unfold Daq34972.checkItem.
  rewrite Hf, He, Z.eqb_refl. reflexivity.
Qed.

(** C5 (the code departs from it).  A channel list with an item that is
    not a well-formed integer does not make [checkList] return [False]:
    [int()] raises [ValueError] and nothing in [checkList] catches it.
    This holds for [Daq34972.checkList] and [Daq3706.checkList], for a
    malformed single channel, a malformed range endpoint, an empty list
    and an item with two colons. *)
Theorem checkList_malformed_item_raises (w : world H) (slots : list string) :
  Daq34972.checkList "abc" w = (Raise Py.ValueError, w) /\
  Daq34972.checkList "101,20x:205" w = (Raise Py.ValueError, w) /\
  Daq34972.checkList EmptyString w = (Raise Py.ValueError, w) /\
  Daq34972.checkList "101:102:103" w = (Raise Py.ValueError, w) /\
  Daq3706.checkList slots "abc" w = (Raise Py.ValueError, w) /\
  Daq3706.checkList slots "20x:205" w = (Raise Py.ValueError, w).
Proof. repeat split; reflexivity. Qed.

(** C6.  A range item [from:to] with [from > to] makes
    [Daq34972.checkList] print the range-order message and return
    [False], whatever the two endpoints are, once the items before it
    have passed. *)
Theorem checkList_range_order (chlist item a b : string)
    (pre post : list string) (x y : Z) (w : world H) :
  Py.split "," chlist = (pre ++ item :: post)%list ->
  (forall p, In p pre ->
     forall w' : world H, Daq34972.checkItem p w' = (Ret None, w')) ->
  Py.split ":" (Py.strip item) = [a; b] ->
  Py.int a = inr x ->
  Py.int b = inr y ->
  x > y ->
  Daq34972.checkList chlist w =
    (Ret false,
     with_console
       (console w ++ [[Lit "Daq34972:checkList() invalid range !"]]) w).
Proof.
  intros Hitems Hpre Hs Ha Hb Hxy. unfold Daq34972.checkList.
  rewrite Hitems, (for_each_passes _ _ _ _ _ Hpre). cbn [for_each].
  unfold bind at 1. rewrite (checkItem_range item a b x y w Hs Ha Hb).
  replace (x >? y) with true by (rewrite Z.gtb_ltb; symmetry; apply Z.ltb_lt; lia).
  reflexivity.
Qed.

(** C8.  In [Daq34972.checkList] a single channel [n] passes exactly
    when [101 <= n <= 440], while a range [x:y] with [x <= y] passes
    exactly when both ends are in [101..399]; so 405 passes as a single
    channel and fails as a range endpoint. *)
Theorem checkList_two_upper_bounds (w : world H) :
  (forall s n,
      Py.find "," s = -1 ->
      Py.find ":" (Py.strip s) = -1 ->
      Py.int (Py.strip s) = inr n ->
      (fst (Daq34972.checkList s w) = Ret true <-> 101 <= n <= 440)) /\
  (forall s a b x y,
      Py.find "," s = -1 ->
      Py.split ":" (Py.strip s) = [a; b] ->
      Py.int a = inr x ->
      Py.int b = inr y ->
      x <= y ->
      (fst (Daq34972.checkList s w) = Ret true
       <-> (101 <= x <= 399 /\ 101 <= y <= 399))) /\
  fst (Daq34972.checkList "405" w) = Ret true /\
  fst (Daq34972.checkList "405:405" w) = Ret false /\
  fst (Daq34972.checkList "401:405" w) = Ret false.
Proof.
  split; [|split; [|repeat split; reflexivity]].
  - intros s n Hc Hf Hn.
    rewrite (checkList_one s w Hc), (checkItem_single s n w Hf Hn).
    destruct (Z.leb_spec 101 n), (Z.leb_spec n 440); cbn; split;
      intros E; try discriminate E; try reflexivity; lia.
  - intros s a b x y Hc Hs Ha Hb Hxy.
    rewrite (checkList_one s w Hc), (checkItem_range s a b x y w Hs Ha Hb).
    replace (x >? y) with false by (rewrite Z.gtb_ltb; symmetry; apply Z.ltb_ge; lia).
    destruct (Z.leb_spec 101 x), (Z.leb_spec x 399), (Z.leb_spec 101 y),
      (Z.leb_spec y 399); cbn; split; intros E; try discriminate E;
      try reflexivity; lia.
Qed.

End ChannelLists.

Lemma checkList_range_order_witness :
  Py.split "," "101, 205:201,abc" = (["101"] ++ " 205:201" :: ["abc"])%list /\
  205 > 201 /\
  Daq34972.checkList "101, 205:201,abc" (bench []) =
    (Ret false,
     with_console [[Lit "Daq34972:checkList() invalid range !"]] (bench [])).
Proof.
  split; [reflexivity|]. split; [reflexivity|].
  apply (checkList_range_order (H := Sim)
           "101, 205:201,abc" " 205:201" "205" "201" ["101"] ["abc"]
           205 201 (bench [])).
  - reflexivity.
  - intros p [<-|[]] w'. reflexivity.
  - reflexivity.
  - reflexivity.
  - reflexivity.
  - reflexivity.
Defined.

Lemma checkList_two_upper_bounds_witness :
  Py.int (Py.strip " 405 ") = inr 405 /\
  fst (Daq34972.checkList " 405 " (bench [])) = Ret true.
Proof.
  split; [reflexivity|].
  apply (proj1 (checkList_two_upper_bounds (H := Sim) (bench []))
           " 405 " 405 eq_refl eq_refl eq_refl).
  lia.
Defined.

(* ================================================================== *)
(** * Comparison of numbers *)
(* ================================================================== *)

Lemma SFcompare_antisym (a b : spec_float) :
  SFcompare b a = option_map CompOpp (SFcompare a b).
Proof.
  destruct a as [s1|s1| |s1 m1 e1], b as [s2|s2| |s2 m2 e2]; simpl;
    try reflexivity;
    try (destruct s1; reflexivity);
    try (destruct s2; reflexivity);
    try (destruct s1, s2; reflexivity).
  destruct s1, s2; simpl; try reflexivity;
    rewrite (Z.compare_antisym e1 e2); destruct (e1 ?= e2); simpl;
    try reflexivity;
    pose proof (Pos.compare_cont_antisym m1 m2 Eq) as E; simpl in E;
    rewrite <- E; destruct (Pos.compare_cont Eq m1 m2); reflexivity.
Qed.

Lemma compare_antisym (a b : Py.num) :
  Py.compare b a = option_map CompOpp (Py.compare a b).
Proof.
  destruct a as [x|x], b as [y|y]; simpl.
  - rewrite (Z.compare_antisym x y). reflexivity.
  - reflexivity.
  - destruct (Py.cmp_Z_SF y (Prim2SF x)) as [[]|]; reflexivity.
  - apply SFcompare_antisym.
Qed.

Lemma lt_compare (a b : Py.num) :
  Py.lt a b = match Py.compare a b with Some Lt => true | _ => false end.
Proof.
  destruct a as [x|x], b as [y|y]; try reflexivity.
  simpl. rewrite ltb_spec. reflexivity.
Qed.

Lemma eq_compare (a b : Py.num) :
  Py.eq a b = match Py.compare a b with Some Eq => true | _ => false end.
Proof.
  destruct a as [x|x], b as [y|y]; try reflexivity.
  simpl. rewrite eqb_spec. reflexivity.
Qed.

(** Equal numbers are not in strict order, either way round. *)
Lemma eq_excludes_lt (a b : Py.num) :
  Py.eq a b = true -> Py.lt a b = false /\ Py.lt b a = false.
Proof.
  rewrite eq_compare, !lt_compare, (compare_antisym a b).
  destruct (Py.compare a b) as [[]|]; simpl; intros E;
    try discriminate E; split; reflexivity.
Qed.

(** No number is below itself. *)
Lemma lt_irreflexive (a : Py.num) : Py.lt a a = false.
Proof.
  rewrite lt_compare. pose proof (compare_antisym a a) as E.
  destruct (Py.compare a a) as [[]|]; simpl in E; try reflexivity.
  discriminate E.
Qed.

(* ================================================================== *)
(** * The error counter *)
(* ================================================================== *)

Section Counter.
Context {H : Type} {T : Transport H}.

Lemma keeps_ret {A} (a : A) : keeps_count (H := H) (ret a).
Proof. intros w. reflexivity. Qed.

Lemma keeps_raise {A} (e : Py.exn) : keeps_count (H := H) (raise (A := A) e).
Proof. intros w. reflexivity. Qed.

Lemma keeps_lift {A} (r : Py.exn + A) : keeps_count (H := H) (lift r).
Proof. destruct r; intros w; reflexivity. Qed.

Lemma keeps_print_text (line : text) : keeps_count (H := H) (print_text line).
Proof. intros w. reflexivity. Qed.

Lemma keeps_print (line : string) : keeps_count (H := H) (print line).
Proof. intros w. reflexivity. Qed.

Lemma keeps_time : keeps_count (H := H) time_time.
Proof. intros w. reflexivity. Qed.

Lemma keeps_sleep (d : Py.num) : keeps_count (H := H) (time_sleep d).
Proof. intros w. reflexivity. Qed.

Lemma keeps_write (cmd : text) : keeps_count (write cmd).
Proof. intros w. unfold write. destruct (visa_write cmd (handle w)). reflexivity. Qed.

Lemma keeps_ask (cmd : text) : keeps_count (ask cmd).
Proof. intros w. unfold ask. destruct (visa_ask cmd (handle w)). reflexivity. Qed.

Lemma keeps_bind {A B} (m : M (H := H) A) (k : A -> M B) :
  keeps_count m -> (forall a, keeps_count (k a)) -> keeps_count (bind m k).
Proof.
  intros Hm Hk w. unfold bind. specialize (Hm w).
  destruct (m w) as [[a|e] w']; simpl in Hm; [|exact Hm].
  rewrite (Hk a w'). exact Hm.
Qed.

Lemma keeps_reraising {A} (line : string) (m : M (H := H) A) :
  keeps_count m -> keeps_count (reraising line m).
Proof.
  intros Hm w. unfold reraising. specialize (Hm w).
  destruct (m w) as [[a|e] w']; exact Hm.
Qed.

Lemma keeps_if {A} (b : bool) (m1 m2 : M (H := H) A) :
  keeps_count m1 -> keeps_count m2 -> keeps_count (if b then m1 else m2).
Proof. destruct b; auto. Qed.

Lemma keeps_for_each {A R} (body : A -> M (H := H) (option R)) (l : list A)
    (after : M R) :
  (forall x, keeps_count (body x)) -> keeps_count after ->
  keeps_count (for_each body l after).
Proof.
  intros Hb Ha. induction l as [|x l IH]; simpl; [exact Ha|].
  apply keeps_bind; [apply Hb|]. intros [v|]; [apply keeps_ret|exact IH].
Qed.

Lemma keeps_to_file (line : text) : keeps_count (H := H) (TestLog.to_file line).
Proof.
  intros w. unfold TestLog.to_file.
  destruct (logfile w) as [f|]; [|reflexivity].
  unfold reraising, TestLog.file_write. destruct (closed f); reflexivity.
Qed.

Create HintDb count discriminated.
#[local] Hint Resolve keeps_ret keeps_raise keeps_lift keeps_print_text
  keeps_print keeps_time keeps_sleep keeps_write keeps_ask keeps_reraising
  keeps_if keeps_to_file : count.

(** Goes through a computation built with [bind], [if] and [match]. *)
Ltac keeps :=
  repeat first
    [ progress auto with count
    | apply keeps_bind; [|intros ?]
    | apply keeps_reraising
    | apply keeps_if
    | match goal with
      | |- keeps_count (match ?x with _ => _ end) => destruct x
      | |- keeps_count (let (_, _) := ?x in _) => destruct x
      end ].

Lemma keeps_logError (line : text) : keeps_count (H := H) (TestLog.logError line).
Proof. unfold TestLog.logError. keeps. Qed.

Lemma keeps_logText (line : text) : keeps_count (H := H) (TestLog.logText line).
Proof. unfold TestLog.logText. keeps. Qed.

Lemma keeps_checkItem (item : string) :
  keeps_count (H := H) (Daq34972.checkItem item).
Proof. unfold Daq34972.checkItem. keeps. Qed.

Lemma keeps_checkList (chlist : string) :
  keeps_count (H := H) (Daq34972.checkList chlist).
Proof.
  unfold Daq34972.checkList.
  apply keeps_for_each; [apply keeps_checkItem|apply keeps_ret].
Qed.

Lemma keeps_configScan (scanList func : string) (rng : arg) (nplc : Py.num) :
  keeps_count (Daq34972.configScan scanList func rng nplc).
Proof.
  unfold Daq34972.configScan. pose proof keeps_checkList as K. keeps.
Qed.

Lemma keeps_read : keeps_count Daq34972.read.
Proof. unfold Daq34972.read. keeps. Qed.

Lemma keeps_readSwitch (switch : Z) (delay : Py.num) :
  keeps_count (Daq34972.readSwitch switch delay).
Proof. unfold Daq34972.readSwitch. keeps. Qed.

Lemma grows_of_keeps {A} (m : M (H := H) A) : keeps_count m -> grows_count m.
Proof. intros K w. rewrite (K w). lia. Qed.

Lemma grows_bind {A B} (m : M (H := H) A) (k : A -> M B) :
  grows_count m -> (forall a, grows_count (k a)) -> grows_count (bind m k).
Proof.
  intros Hm Hk w. unfold bind. specialize (Hm w).
  destruct (m w) as [[a|e] w']; simpl in Hm; [|exact Hm].
  specialize (Hk a w'). lia.
Qed.

Lemma grows_bumpError : grows_count (H := H) Errors.bumpError.
Proof. intros w. simpl. lia. Qed.

Lemma grows_chkLimits (name : string) (value Min Max : Py.num)
    (unit : string) (Hex : bool) :
  grows_count (H := H) (Error.chkLimits name value Min Max unit Hex).
Proof.
  unfold Error.chkLimits.
  destruct (negb (Py.lt Min value && Py.lt value Max)).
  - apply grows_bind; [apply grows_of_keeps; keeps|]. intros line.
    apply grows_bind; [apply grows_of_keeps, keeps_logError|]. intros _.
    apply grows_bind; [apply grows_bumpError|]. intros _.
    apply grows_of_keeps, keeps_ret.
  - apply grows_of_keeps.
    apply keeps_bind; [keeps|]. intros line.
    apply keeps_bind; [apply keeps_logText|]. intros _. apply keeps_ret.
Qed.

Lemma grows_after (o : operation) (w : world H) :
  errorCount w <= errorCount (after o w).
Proof.
  destruct o; cbn [after].
  - apply grows_bumpError.
  - simpl. lia.
  - apply grows_chkLimits.
  - unfold Error.measureAndCheckSwich.
    apply grows_bind; [apply grows_of_keeps, keeps_configScan|]. intros _.
    apply grows_bind; [apply grows_of_keeps, keeps_read|]. intros v.
    apply grows_bind; [apply grows_chkLimits|]. intros _.
    apply grows_of_keeps, keeps_ret.
  - unfold Error.switchAndCheck.
    apply grows_bind; [apply grows_of_keeps, keeps_readSwitch|]. intros v.
    apply grows_bind; [apply grows_of_keeps, keeps_lift|]. intros n.
    apply grows_bind; [apply grows_chkLimits|]. intros _.
    apply grows_of_keeps, keeps_ret.
Qed.

Lemma grows_run (ops : list operation) (w : world H) :
  errorCount w <= errorCount (run ops w).
Proof.
  unfold run. revert w.
  induction ops as [|o ops IH]; intros w; cbn [fold_left]; [lia|].
  specialize (IH (after o w)). pose proof (grows_after o w). lia.
Qed.

Lemma logError_ready (line : text) (w : world H) :
  log_ready w = true -> fst (TestLog.logError line w) = Ret tt.
Proof.
  unfold log_ready, TestLog.logError, TestLog.to_file, bind, print_text.
  cbn [with_console logfile fst snd]. destruct (logfile w) as [f|];
    [|reflexivity].
  unfold reraising, TestLog.file_write. destruct (closed f);
    [discriminate|reflexivity].
Qed.

Lemma logText_ready (line : text) (w : world H) :
  log_ready w = true -> fst (TestLog.logText line w) = Ret tt.
Proof.
  unfold log_ready, TestLog.logText, TestLog.to_file, bind, print_text.
  cbn [with_console logfile fst snd]. destruct (logfile w) as [f|];
    [|reflexivity].
  unfold reraising, TestLog.file_write. destruct (closed f);
    [discriminate|reflexivity].
Qed.

(** Outside the limits, with a log that takes the line. *)
Lemma check_outside_run (name : string) (value Min Max : Py.num)
    (w : world H) :
  log_ready w = true ->
  Py.lt Min value && Py.lt value Max = false ->
  exists w', check name value Min Max w = (Ret false, w') /\
             errorCount w' = errorCount w + 1.
Proof.
  intros Hlog Hout. unfold check, Error.chkLimits. rewrite Hout.
  cbn [negb]. unfold bind. cbn [ret].
  match goal with |- context [TestLog.logError ?l] => set (line := l) end.
  pose proof (logError_ready line w Hlog) as Hr.
  pose proof (keeps_logError line w) as Hk.
  destruct (TestLog.logError line w) as [[[]|e] w1];
    simpl in Hr, Hk; [|discriminate Hr].
  eexists. split; [reflexivity|]. simpl. rewrite Hk. reflexivity.
Qed.

Lemma check_outside (name : string) (value Min Max : Py.num) (w : world H) :
  log_ready w = true ->
  Py.lt Min value && Py.lt value Max = false ->
  fst (check name value Min Max w) = Ret false /\
  errorCount (snd (check name value Min Max w)) = errorCount w + 1.
Proof.
  intros Hlog Hout.
  destruct (check_outside_run name value Min Max w Hlog Hout) as (w' & E & C).
  rewrite E. split; [reflexivity|exact C].
Qed.

(** Inside the limits, with a log that takes the line. *)
Lemma check_inside_run (name : string) (value Min Max : Py.num)
    (w : world H) :
  log_ready w = true ->
  Py.lt Min value && Py.lt value Max = true ->
  exists w', check name value Min Max w = (Ret true, w') /\
             errorCount w' = errorCount w.
Proof.
  intros Hlog Hin. unfold check, Error.chkLimits. rewrite Hin.
  cbn [negb]. unfold bind. cbn [ret].
  match goal with |- context [TestLog.logText ?l] => set (line := l) end.
  pose proof (logText_ready line w Hlog) as Hr.
  pose proof (keeps_logText line w) as Hk.
  destruct (TestLog.logText line w) as [[[]|e] w1];
    simpl in Hr, Hk; [|discriminate Hr].
  eexists. split; [reflexivity|]. exact Hk.
Qed.

Lemma check_inside (name : string) (value Min Max : Py.num) (w : world H) :
  log_ready w = true ->
  Py.lt Min value && Py.lt value Max = true ->
  fst (check name value Min Max w) = Ret true /\
  errorCount (snd (check name value Min Max w)) = errorCount w.
Proof.
  intros Hlog Hin.
  destruct (check_inside_run name value Min Max w Hlog Hin) as (w' & E & C).
  rewrite E. split; [reflexivity|exact C].
Qed.

(** With a log whose file is closed the check raises, before the counter
    is touched. *)
Lemma check_with_closed_log (name : string) (value Min Max : Py.num)
    (w : world H) :
  log_ready w = false ->
  exists w', check name value Min Max w = (Raise Py.ValueError, w') /\
             errorCount w' = errorCount w.
Proof.
  unfold log_ready. intros Hlog.
  destruct (logfile w) as [f|] eqn:Ef; [|discriminate Hlog].
  destruct (closed f) eqn:Ec; [|discriminate Hlog].
  unfold check, Error.chkLimits.
  destruct (negb (Py.lt Min value && Py.lt value Max));
    unfold bind, TestLog.logError, TestLog.logText, TestLog.to_file, bind,
      print_text; cbn [ret with_console logfile fst snd]; rewrite Ef;
    unfold reraising, TestLog.file_write; rewrite Ec;
    eexists; split; reflexivity.
Qed.



End Counter.



(* ================================================================== *)
(** * Block replies *)
(* ================================================================== *)

Section Blocks.
Context {H : Type} {T : Transport H}.

(** [Daq34972.decodeBlock] on a reply that [reading_of] reads. *)
Lemma decodeBlock_reading (reply : string) (x : float) (w : world H) :
  reading_of reply = Some x ->
  Daq34972.decodeBlock reply w = (Ret (Some x), w).
Proof.
  unfold reading_of, Daq34972.decodeBlock. intros E.
  destruct (Py.index reply 0) as [e|first]; [discriminate E|].
  cbn [lift bind ret]. destruct (String.eqb first "#"); [|discriminate E].
  cbn [negb]. destruct (after_block_header reply) as [e|payload];
    [discriminate E|].
  cbn [lift bind ret].
  destruct (Py.float_of_string (Py.strip payload)) as [e|y];
    [discriminate E|].
  injection E as ->. reflexivity.
Qed.

(** The header of a block whose second character is the digit [c]. *)
Lemma after_block_header_digit (c : ascii) (rest : string) :
  Py.is_digit c = true ->
  after_block_header (String "#" (String c rest))
  = inr (Py.slice_from (Z.to_nat (Py.digit_val c)) rest).
Proof.
  intros Hc. unfold after_block_header. cbn [Py.index String.get].
  rewrite (int_of_digit c Hc). reflexivity.
Qed.

(** C1 (as amended).  On a reply ['#'], a digit [d], and the rest, the
    block decoders skip [d] characters without reading them as a length
    and take all that follows, stripped, as the payload: [Daq34972]
    converts it with [float], [Dvm34411] returns it as text.  No declared
    length is compared with the bytes that are there. *)
Theorem decodeBlock_skips_length_digits (c : ascii) (rest : string)
    (w : world H) :
  Py.is_digit c = true ->
  Daq34972.decodeBlock (String "#" (String c rest)) w =
    match Py.float_of_string
            (Py.strip (Py.slice_from (Z.to_nat (Py.digit_val c)) rest)) with
    | inr x => (Ret (Some x), w)
    | inl e =>
        (Raise e,
         with_console
           (console w ++
            [[Lit "Daq34972.waitOverlappedDone() Exception in conversion to float !"]])
           w)
    end /\
  Dvm34411.decodeBlock (String "#" (String c rest)) w =
    (Ret (Some (Py.strip (Py.slice_from (Z.to_nat (Py.digit_val c)) rest))), w).
Proof.
  intros Hc. unfold Daq34972.decodeBlock, Dvm34411.decodeBlock.
  cbn [Py.index String.get lift bind ret].
  change (String.eqb "#" "#") with true. cbn [negb].
  rewrite (after_block_header_digit c rest Hc). cbn [lift bind ret].
  split; [|reflexivity].
  unfold reraising.
  destruct (Py.float_of_string
              (Py.strip (Py.slice_from (Z.to_nat (Py.digit_val c)) rest)));
    reflexivity.
Qed.

Lemma substring_whole (s : string) : substring 0 (String.length s) s = s.
Proof. induction s as [|a s IH]; simpl; [reflexivity|]. rewrite IH. reflexivity. Qed.

(** When the length field is the number of bytes that follow it, the
    decoder of [Daq34972] reads what the decoder of the specification
    reads. *)
Lemma decodeBlock_meets_spec_on_exact_length (c : ascii) (rest : string)
    (w : world H) :
  Py.is_digit c = true ->
  let d := Z.to_nat (Py.digit_val c) in
  Spec.byte_count (substring 0 d rest)
    = Some (String.length (Py.slice_from d rest)) ->
  match Spec.decodeBlock (String "#" (String c rest)) with
  | inr x =>
      Daq34972.decodeBlock (String "#" (String c rest)) w = (Ret (Some x), w)
  | inl err =>
      err = Spec.NotANumber /\
      fst (Daq34972.decodeBlock (String "#" (String c rest)) w)
        = Raise Py.ValueError
  end.
Proof.
  intros Hc d Hlen. unfold Spec.decodeBlock. rewrite Hc. fold d.
  rewrite Hlen, Nat.ltb_irrefl, substring_whole.
  unfold Daq34972.decodeBlock.
  cbn [Py.index String.get lift bind ret].
  change (String.eqb "#" "#") with true. cbn [negb].
  rewrite (after_block_header_digit c rest Hc). fold d.
  cbn [lift bind ret]. unfold reraising, Py.float_of_string.
  destruct (Py.drop_underscores "000" (Py.strip (Py.strip (Py.slice_from d rest))))
    as [t|]; [|split; reflexivity].
  destruct (Py.take_sign t) as [neg body].
  destruct (String.eqb (Py.upper body) "INF" || String.eqb (Py.upper body) "INFINITY");
    [reflexivity|].
  destruct (String.eqb (Py.upper body) "NAN"); [reflexivity|].
  destruct (Py.decimal_literal body) as [[m e]|]; [reflexivity|].
  split; reflexivity.
Qed.

(** Draining [n] replies that all read as numbers gives those numbers in
    the order of the replies. *)
Lemma drain_complete (n : nat) :
  forall (rs : list string) (xs : list float) (h2 : H) (acc : list value)
         (w : world H),
    answers [Lit "R? 1;"] n (handle w) = Some (rs, h2) ->
    map reading_of rs = map Some xs ->
    Daq34972.drain n acc w =
      (Ret (VList (acc ++ map (fun x => VNum (Py.Float x)) xs)),
       with_handle h2 w).
Proof.
  induction n as [|n IH]; intros rs xs h2 acc w Hans Hread.
  - cbn in Hans. injection Hans as <- <-.
    destruct xs; [|discriminate Hread].
    cbn. rewrite app_nil_r. destruct w; reflexivity.
  - cbn [answers] in Hans.
    destruct (visa_ask [Lit "R? 1;"] (handle w)) as [[r|e] h1] eqn:Eask;
      [|discriminate Hans].
    destruct (answers [Lit "R? 1;"] n h1) as [[rs' h']|] eqn:Erest;
      [|discriminate Hans].
    injection Hans as <- <-.
    destruct xs as [|x xs]; [discriminate Hread|].
    cbn [map] in Hread. injection Hread as Hx Hxs.
    cbn [Daq34972.drain]. unfold bind at 1, reraising, ask. rewrite Eask.
    unfold bind at 1. rewrite (decodeBlock_reading r x _ Hx).
    rewrite (IH rs' xs h' _ (with_handle h1 w) Erest Hxs).
    cbn [map]. rewrite <- app_assoc. reflexivity.
Qed.

Lemma map_Some_length {A B} (f : A -> option B) (l : list A) (xs : list B) :
  map f l = map Some xs -> List.length xs = List.length l.
Proof.
  intros E. rewrite <- (length_map Some xs), <- E. apply length_map.
Qed.

Lemma answers_length (cmd : text) (n : nat) :
  forall (h h' : H) (rs : list string),
    answers cmd n h = Some (rs, h') -> List.length rs = n.
Proof.
  induction n as [|n IH]; intros h h' rs E; cbn in E.
  - injection E as <- <-. reflexivity.
  - destruct (visa_ask cmd h) as [[r|e] h1]; [|discriminate E].
    destruct (answers cmd n h1) as [[rs' h'']|] eqn:Er; [|discriminate E].
    injection E as <- <-. cbn. f_equal. exact (IH _ _ _ Er).
Qed.

(** A completed acquisition with [Daq34972]: when the polling loop ends
    with the counter at [n], and the instrument answers the [n] reads
    with blocks that read as [xs], the call returns exactly those [n]
    floats, first answer first. *)
Lemma Daq34972_wait_complete (fuel n : nat) (timeout : Py.num)
    (w w1 : world H) (rs : list string) (xs : list float) (h2 : H) :
  Daq34972.poll fuel (Py.Int (Z.of_nat n)) timeout (clock w (ticks w))
    (with_ticks (S (ticks w)) w) = Some (Ret true, w1) ->
  answers [Lit "R? 1;"] n (handle w1) = Some (rs, h2) ->
  map reading_of rs = map Some xs ->
  Daq34972.waitOverlappedDone fuel (Py.Int (Z.of_nat n)) timeout w =
    Some (Ret (VList (map (fun x => VNum (Py.Float x)) xs)), with_handle h2 w1)
  /\ List.length xs = n.
Proof.
  intros Hpoll Hans Hread. split.
  - unfold Daq34972.waitOverlappedDone. cbn [time_time].
    rewrite Hpoll. cbn [range_length lift bind ret].
    rewrite Nat2Z.id.
    rewrite (drain_complete n rs xs h2 [] w1 Hans Hread). reflexivity.
  - rewrite (map_Some_length _ _ _ Hread). exact (answers_length _ _ _ _ _ Hans).
Qed.

End Blocks.

(** The reply ["#29" + "1"*9]: its length field reads 91, eight bytes
    follow, and the decoders return a reading all the same; so they do
    when the length field is no number at all. *)
Lemma decodeBlock_accepts_excess_length :
  Spec.decodeBlock "#29111111111" = inl Spec.InvalidLength /\
  fst (Daq34972.decodeBlock "#29111111111" (bench []))
    = Ret (Some 11111111%float) /\
  fst (Dvm34411.decodeBlock "#29111111111" (bench []))
    = Ret (Some "11111111") /\
  Spec.decodeBlock "#2XY+1.5" = inl Spec.InvalidLength /\
  fst (Daq34972.decodeBlock "#2XY+1.5" (bench [])) = Ret (Some 1.5%float).
Proof. vm_compute. repeat split; reflexivity. Qed.

(** The reply of the specification's own example, ["#15+1.234"], has a
    length field of 5 and six bytes of payload: the wrappers read 1.234,
    taking exactly five bytes would read 1.23. *)
Example decodeBlock_example_of_the_spec :
  fst (Daq34972.decodeBlock "#15+1.234" (bench [])) = Ret (Some 1.234%float) /\
  Spec.decodeBlock "#15+1.234" = inr 1.23%float.
Proof. vm_compute. split; reflexivity. Qed.

Lemma decodeBlock_skips_length_digits_witness :
  Py.is_digit "2" = true /\
  Daq34972.decodeBlock "#206+2.500" (bench [])
    = (Ret (Some 2.5%float), bench []) /\
  Dvm34411.decodeBlock "#2xx+2.500" (bench []) = (Ret (Some "+2.500"), bench []).
Proof.
  split; [reflexivity|]. split.
  - exact (proj1 (decodeBlock_skips_length_digits (H := Sim) "2" "06+2.500"
                    (bench []) eq_refl)).
  - exact (proj2 (decodeBlock_skips_length_digits (H := Sim) "2" "xx+2.500"
                    (bench []) eq_refl)).
Defined.

(* ================================================================== *)
(** * Overlapped acquisition *)
(* ================================================================== *)

Section Overlapped.
Context {H : Type} {T : Transport H}.

(** The six commands of [startOverlapped], given the quotient. *)
Lemma write_accepted (c : text) (w : world H) (h' : H) (u : unit) :
  visa_write c (handle w) = (Ret u, h') ->
  write c w = (Ret tt, with_handle h' w).
Proof. intros E. unfold write. rewrite E. destruct u. reflexivity. Qed.

(** C2 (as amended).  [startOverlapped(period, total)] checks nothing.
    Once the session has taken [:TRIG:SOUR BUS;], either [total / period]
    cannot be computed (a period of zero) and the exception is reported
    and raised again with nothing more sent, or the wrapper sends the
    sample count [str(total / period)] (the quotient as it is, not
    rounded up), the sample source, the sample period, [:INIT:IMM;] and
    [*TRG;], in this order, and returns [True] when the session accepts
    them. *)
Theorem startOverlapped_sends_quotient (period total : Py.num)
    (w : world H) (u : unit) (h1 : H) :
  visa_write [Lit ":TRIG:SOUR BUS;"] (handle w) = (Ret u, h1) ->
  match Py.div total period with
  | inl e =>
      Daq34972.startOverlapped period total w =
        (Raise e,
         with_console
           (console w ++ [[Lit "Exception in Daq34972.startOverlapped() !"]])
           (with_handle h1 w)) /\
      Dvm34411.startOverlapped period total w =
        (Raise e,
         with_console
           (console w ++ [[Lit "Dvm34411.startOverlapped() failed !"]])
           (with_handle h1 w))
  | inr q =>
      forall h' : H,
        accepts [ cat [Lit ":SAMP:COUN "; Repr q; Lit ";"];
                  [Lit ":SAMP:SOUR TIM;"];
                  cat [Lit ":SAMP:TIM "; str_num period; Lit ";"];
                  [Lit ":INIT:IMM;"];
                  [Lit "*TRG;"] ] h1 = Some h' ->
        Daq34972.startOverlapped period total w = (Ret true, with_handle h' w)
        /\
        Dvm34411.startOverlapped period total w = (Ret true, with_handle h' w)
  end.
Proof.
  intros E. unfold Daq34972.startOverlapped, Dvm34411.startOverlapped.
  destruct (Py.div total period) as [e|q].
  - split.
    all: unfold bind at 1; unfold reraising.
    all: unfold bind at 1; rewrite (write_accepted _ w _ _ E).
    all: reflexivity.
  - intros h' Hacc. cbn [accepts] in Hacc.
    repeat match type of Hacc with
           | context [visa_write ?c ?h] =>
               let F := fresh "F" in
               destruct (visa_write c h) as [[?|?] ?] eqn:F;
               [cbv beta iota in Hacc|discriminate Hacc]
           end.
    injection Hacc as <-.
    split.
    all: unfold bind at 1; unfold reraising.
    all: unfold bind at 1; rewrite (write_accepted _ w _ _ E).
    all: unfold bind at 1; cbn [lift ret].
    all: unfold bind at 1; rewrite (write_accepted _ (with_handle _ w) _ _ F).
    all: unfold bind at 1;
      rewrite (write_accepted _ (with_handle _ (with_handle _ w)) _ _ F0).
    all: unfold bind at 1;
      rewrite (write_accepted _
                 (with_handle _ (with_handle _ (with_handle _ w))) _ _ F1).
    all: unfold bind at 1;
      rewrite (write_accepted _
                 (with_handle _
                    (with_handle _ (with_handle _ (with_handle _ w))))
                 _ _ F2).
    all: rewrite (write_accepted _
                 (with_handle _
                    (with_handle _
                       (with_handle _ (with_handle _ (with_handle _ w)))))
                 _ _ F3).
    all: reflexivity.
Qed.

(** The first pass of the polling loop when the counter is already at
    [count]: the loop ends there. *)
Lemma poll_first_query (fuel : nat) (count timeout : Py.num)
    (startTime : float) (w : world H) (reply : string) (h1 : H) (m : Z) :
  visa_ask [Lit ":DATA:POIN?;"] (handle w) = (Ret reply, h1) ->
  Py.int (Py.strip reply) = inr m ->
  Py.eq (Py.Int m) count = true ->
  Daq34972.poll (S fuel) count timeout startTime w
    = Some (Ret true, with_handle h1 w) /\
  Dvm34411.poll (S fuel) count timeout startTime w
    = Some (Ret true, with_handle h1 w).
Proof.
  intros Hask Hint Heq.
  cbn [Daq34972.poll Dvm34411.poll].
  unfold Daq34972.pollOnce, Dvm34411.pollOnce, reraising, ask.
  unfold bind. rewrite Hask, Hint. cbn [lift ret]. rewrite Heq.
  split; reflexivity.
Qed.

(** More fuel does not change a polling loop that has ended. *)
Lemma poll_more_fuel (fuel : nat) :
  forall (count timeout : Py.num) (startTime : float) (w : world H)
         (r : outcome bool * world H),
    Daq34972.poll fuel count timeout startTime w = Some r ->
    Daq34972.poll (S fuel) count timeout startTime w = Some r.
Proof.
  induction fuel as [|fuel IH]; intros count timeout startTime w r E;
    [discriminate E|].
  cbn [Daq34972.poll] in E |- *.
  destruct (Daq34972.pollOnce count timeout startTime w) as [[[b|]|e] w'];
    try exact E.
  apply IH. exact E.
Qed.

Lemma wait_more_fuel (fuel : nat) (count timeout : Py.num) (w : world H)
    (r : outcome value * world H) :
  Daq34972.waitOverlappedDone fuel count timeout w = Some r ->
  Daq34972.waitOverlappedDone (S fuel) count timeout w = Some r.
Proof.
  unfold Daq34972.waitOverlappedDone. cbn [time_time].
  destruct (Daq34972.poll fuel count timeout (clock w (ticks w))
              (with_ticks (S (ticks w)) w)) as [p|] eqn:E; [|discriminate].
  rewrite (poll_more_fuel fuel _ _ _ _ _ E). intros R. exact R.
Qed.


End Overlapped.

(** With a period of -1 s the wrappers arm and trigger the instrument
    and return [True]; with [total = 5] and [period = 2] the sample count
    they send is 2.5, not 3. *)
Lemma startOverlapped_arms_on_negative_period :
  Daq34972.startOverlapped (Py.Int (-1)) (Py.Int 5) (bench []) =
    (Ret true,
     with_handle
       {| sent := [ [Lit ":TRIG:SOUR BUS;"];
                    [Lit ":SAMP:COUN "; Repr (-5)%float; Lit ";"];
                    [Lit ":SAMP:SOUR TIM;"];
                    [Lit ":SAMP:TIM -1;"];
                    [Lit ":INIT:IMM;"];
                    [Lit "*TRG;"] ];
          inbox := [] |} (bench [])) /\
  fst (Dvm34411.startOverlapped (Py.Float 1) (Py.Float 0) (bench []))
    = Ret true /\
  nth_error
    (sent (handle (snd (Daq34972.startOverlapped (Py.Int 2) (Py.Int 5)
                          (bench []))))) 1
    = Some [Lit ":SAMP:COUN "; Repr 2.5%float; Lit ";"].
Proof. vm_compute. repeat split; reflexivity. Qed.

Lemma startOverlapped_sends_quotient_witness :
  Daq34972.startOverlapped (Py.Float 1) (Py.Float 5) (bench []) =
    (Ret true,
     with_handle
       {| sent := [ [Lit ":TRIG:SOUR BUS;"];
                    [Lit ":SAMP:COUN "; Repr 5%float; Lit ";"];
                    [Lit ":SAMP:SOUR TIM;"];
                    [Lit ":SAMP:TIM "; Repr 1%float; Lit ";"];
                    [Lit ":INIT:IMM;"];
                    [Lit "*TRG;"] ];
          inbox := [] |} (bench [])) /\
  Dvm34411.startOverlapped (Py.Int 0) (Py.Int 5) (bench []) =
    (Raise Py.ZeroDivisionError,
     with_console [[Lit "Dvm34411.startOverlapped() failed !"]]
       (with_handle {| sent := [[Lit ":TRIG:SOUR BUS;"]]; inbox := [] |}
          (bench []))).
Proof.
  split.
  - apply (startOverlapped_sends_quotient (T := Sim_Transport)
             (Py.Float 1) (Py.Float 5) (bench []) tt
             {| sent := [[Lit ":TRIG:SOUR BUS;"]]; inbox := [] |} eq_refl).
    reflexivity.
  - apply (startOverlapped_sends_quotient (T := Sim_Transport)
             (Py.Int 0) (Py.Int 5) (bench []) tt
             {| sent := [[Lit ":TRIG:SOUR BUS;"]]; inbox := [] |} eq_refl).
Defined.


(** C3 (the code departs from it).  With a function name that is in no
    table, [configScan] and [config] print nothing, send the command
    built from the name and return [True]: the test
    [func in list(ranges.keys()) == False] is false for every name. *)
Theorem config_unknown_function_is_sent :
  Daq34972.configScan "101" "foo" (AStr "AUTO") (Py.Int 1) (bench []) =
    (Ret true,
     with_handle {| sent := [[Lit "CONF:FOO AUTO,(@101)"]]; inbox := [] |}
       (bench [])) /\
  Dvm34411.config "foo" (AStr "AUTO") (Py.Int 1) true (bench []) =
    (Ret true,
     with_handle
       {| sent := [ cat [Lit "FUNC:ON "; Lit dquote; Lit "FOO"; Lit dquote];
                    [Lit "FOO:RANGE :AUTO"] ];
          inbox := [] |} (bench [])) /\
  (forall func : string,
      among func (map fst Daq34972.ranges)
        && list_eq_bool (map fst Daq34972.ranges) false = false /\
      among func (map fst Dvm34411.ranges)
        && list_eq_bool (map fst Dvm34411.ranges) false = false).
Proof.
  split; [vm_compute; reflexivity|]. split; [vm_compute; reflexivity|].
  intros func. unfold list_eq_bool. rewrite !andb_false_r. split; reflexivity.
Qed.

(** C4 (the code departs from it).  [Dvm34411.waitOverlappedDone] returns
    the payloads as text: with the counter at 2 and the answers
    ["#15+1.234"] and ["#13abc"] it returns ['+1.234', 'abc'], two strings
    and no float, and raises nothing for the second. *)
Theorem Dvm34411_wait_returns_text :
  Dvm34411.waitOverlappedDone 1 (Py.Int 2) (Py.Int 5)
    (bench ["2"; "#15+1.234"; "#13abc"])
  = Some (Ret (VList [VStr "+1.234"; VStr "abc"]),
          with_handle
            {| sent := [ [Lit ":DATA:POIN?;"]; [Lit "R? 1;"]; [Lit "R? 1;"] ];
               inbox := [] |}
            (with_ticks 1 (bench ["2"; "#15+1.234"; "#13abc"]))).
Proof. vm_compute. reflexivity. Qed.

(** The simulated device of the specification: the counter reaches 5 at
    the third poll, and [Daq34972] returns the five readings in the order
    of the answers. *)
Example Daq34972_wait_five_readings :
  fst_of (Daq34972.waitOverlappedDone 3 (Py.Int 5) (Py.Int 10)
            (bench ["1"; "3"; "5"; "#13+10"; "#13+20"; "#13+30"; "#13+40";
                    "#13+50"]))
  = Some (Ret (VList [VNum (Py.Float 10); VNum (Py.Float 20);
                      VNum (Py.Float 30); VNum (Py.Float 40);
                      VNum (Py.Float 50)])).
Proof. vm_compute. reflexivity. Qed.

(** A device that never reaches the count: [False] and the timeout line. *)
Example Daq34972_wait_timeout :
  option_map (fun r => (fst r, console (snd r)))
    (Daq34972.waitOverlappedDone 5 (Py.Int 5) (Py.Int 2)
       (bench ["1"; "1"; "1"; "1"; "1"]))
  = Some (Ret (VBool false),
          [[Lit "Daq34972.waitOverlappedDone() timeout !"]]).
Proof. vm_compute. reflexivity. Qed.

(* ================================================================== *)
(** * What a computation leaves alone *)
(* ================================================================== *)

Section Frame.
Context {H : Type} {T : Transport H} {X : Type}.
Variable proj : world H -> X.
Hypothesis proj_console : forall c w, proj (with_console c w) = proj w.
Hypothesis proj_ticks : forall n w, proj (with_ticks n w) = proj w.

Lemma frame_ret {A} (a : A) : keeps proj (ret a).
Proof. intros w. reflexivity. Qed.

Lemma frame_raise {A} (e : Py.exn) : keeps proj (raise (A := A) e).
Proof. intros w. reflexivity. Qed.

Lemma frame_lift {A} (r : Py.exn + A) : keeps proj (lift r).
Proof. destruct r; intros w; reflexivity. Qed.

Lemma frame_print_text (line : text) : keeps proj (print_text line).
Proof. intros w. apply proj_console. Qed.

Lemma frame_print (line : string) : keeps proj (print line).
Proof. intros w. apply proj_console. Qed.

Lemma frame_time : keeps proj time_time.
Proof. intros w. apply proj_ticks. Qed.

Lemma frame_sleep (d : Py.num) : keeps proj (time_sleep d).
Proof. intros w. reflexivity. Qed.

Lemma frame_bind {A B} (m : M (H := H) A) (k : A -> M B) :
  keeps proj m -> (forall a, keeps proj (k a)) -> keeps proj (bind m k).
Proof.
  intros Hm Hk w. unfold bind. specialize (Hm w).
  destruct (m w) as [[a|e] w']; simpl in Hm; [|exact Hm].
  rewrite (Hk a w'). exact Hm.
Qed.

Lemma frame_reraising {A} (line : string) (m : M (H := H) A) :
  keeps proj m -> keeps proj (reraising line m).
Proof.
  intros Hm w. unfold reraising. specialize (Hm w).
  destruct (m w) as [[a|e] w']; simpl in *; [exact Hm|].
  rewrite proj_console. exact Hm.
Qed.

Lemma frame_for_each {A R} (body : A -> M (H := H) (option R)) (l : list A)
    (after : M R) :
  (forall x, keeps proj (body x)) -> keeps proj after ->
  keeps proj (for_each body l after).
Proof.
  intros Hb Ha. induction l as [|x l IH]; simpl; [exact Ha|].
  apply frame_bind; [apply Hb|]. intros [v|]; [apply frame_ret|exact IH].
Qed.

Hypothesis proj_handle : forall h w, proj (with_handle h w) = proj w.

Lemma frame_write (cmd : text) : keeps proj (write cmd).
Proof.
  intros w. unfold write. destruct (visa_write cmd (handle w)).
  apply proj_handle.
Qed.

Lemma frame_ask (cmd : text) : keeps proj (ask cmd).
Proof.
  intros w. unfold ask. destruct (visa_ask cmd (handle w)).
  apply proj_handle.
Qed.

End Frame.

(** Goes through a computation that never uses the session. *)
Ltac frame :=
  repeat first
    [ solve [eauto 2]
    | apply frame_ret
    | apply frame_raise
    | apply frame_lift
    | apply frame_print; intros; reflexivity
    | apply frame_print_text; intros; reflexivity
    | apply frame_time; intros; reflexivity
    | apply frame_sleep
    | apply frame_reraising; [intros; reflexivity|]
    | apply frame_bind; [|intros ?]
    | match goal with
      | |- keeps _ (if ?b then _ else _) => destruct b
      | |- keeps _ (match ?x with _ => _ end) => destruct x
      | |- keeps _ (let (_, _) := ?x in _) => destruct x
      end ].

(** The same, for a component that the session does not touch. *)
Ltac frame_io :=
  repeat first
    [ solve [eauto 2]
    | apply frame_write; intros; reflexivity
    | apply frame_ask; intros; reflexivity
    | apply frame_ret
    | apply frame_raise
    | apply frame_lift
    | apply frame_print; intros; reflexivity
    | apply frame_print_text; intros; reflexivity
    | apply frame_time; intros; reflexivity
    | apply frame_sleep
    | apply frame_reraising; [intros; reflexivity|]
    | apply frame_bind; [|intros ?]
    | match goal with
      | |- keeps _ (if ?b then _ else _) => destruct b
      | |- keeps _ (match ?x with _ => _ end) => destruct x
      | |- keeps _ (let (_, _) := ?x in _) => destruct x
      end ].

Section Silent.
Context {H : Type} {T : Transport H}.

Lemma handle_checkItem (item : string) :
  keeps (H := H) handle (Daq34972.checkItem item).
Proof. unfold Daq34972.checkItem. frame. Qed.

Lemma handle_checkList (chlist : string) :
  keeps (H := H) handle (Daq34972.checkList chlist).
Proof.
  unfold Daq34972.checkList.
  apply frame_for_each; [apply handle_checkItem|apply frame_ret].
Qed.

Lemma handle_checkSwitchNumber (slots : list string) (switch : Z) :
  keeps (H := H) handle (Daq3706.checkSwitchNumber slots switch).
Proof. unfold Daq3706.checkSwitchNumber. frame. Qed.

Lemma handle_checkItem_3706 (slots : list string) (item : string) :
  keeps (H := H) handle (Daq3706.checkItem slots item).
Proof.
  unfold Daq3706.checkItem. pose proof (handle_checkSwitchNumber slots) as K.
  frame.
Qed.

Lemma handle_checkList_3706 (slots : list string) (chlist : string) :
  keeps (H := H) handle (Daq3706.checkList slots chlist).
Proof.
  unfold Daq3706.checkList.
  apply frame_for_each; [apply handle_checkItem_3706|apply frame_ret].
Qed.

Lemma silent_of_keeps {A} (bad : A) (m : M (H := H) A) :
  keeps handle m -> silent_on bad m.
Proof. intros K w _. apply K. Qed.

Lemma silent_of_never {A} (bad : A) (m : M (H := H) A) :
  never_returns bad m -> silent_on bad m.
Proof. intros N w E. destruct (N w E). Qed.

Lemma silent_bind {A B} (bad : B) (m : M (H := H) A) (k : A -> M B) :
  keeps handle m -> (forall a, silent_on bad (k a)) ->
  silent_on bad (bind m k).
Proof.
  intros Km Sk w. unfold bind. specialize (Km w).
  destruct (m w) as [[a|e] w']; simpl in Km; [|intros _; exact Km].
  intros E. rewrite (Sk a w' E). exact Km.
Qed.

Lemma never_ret {A} (bad v : A) : v <> bad -> never_returns (H := H) bad (ret v).
Proof. intros N w E. simpl in E. injection E as E. exact (N E). Qed.

Lemma never_bind {A B} (bad : B) (m : M (H := H) A) (k : A -> M B) :
  (forall a, never_returns bad (k a)) -> never_returns bad (bind m k).
Proof.
  intros Nk w. unfold bind. destruct (m w) as [[a|e] w'];
    [apply Nk|discriminate].
Qed.

Lemma silent_print_ret {A} (bad v : A) (line : string) :
  silent_on (H := H) bad (print line ;;; ret v).
Proof. apply silent_of_keeps. frame. Qed.

Lemma true_is_not_false : true <> false.
Proof. discriminate. Qed.

Lemma silent_configScan (scanList func : string) (rng : arg) (nplc : Py.num) :
  silent_on false (Daq34972.configScan scanList func rng nplc).
Proof.
  unfold Daq34972.configScan.
  match goal with |- silent_on _ (if ?c then _ else _) => destruct c end;
    [apply silent_print_ret|].
  apply silent_bind; [frame|]. intros [b|strRng].
  - apply silent_of_keeps. frame.
  - match goal with |- silent_on _ (if ?c then _ else _) => destruct c end;
      [apply silent_print_ret|].
    apply silent_bind; [apply handle_checkList|]. intros ok.
    destruct (Bool.eqb ok false); [apply silent_print_ret|].
    apply silent_of_never, never_bind. intros _.
    apply never_ret, true_is_not_false.
Qed.

Lemma silent_configAcFilter (scanList : string) (freq : Py.num) :
  silent_on false (Daq34972.configAcFilter scanList freq).
Proof.
  unfold Daq34972.configAcFilter.
  apply silent_bind; [apply handle_checkList|]. intros ok.
  destruct (Bool.eqb ok false); [apply silent_print_ret|].
  destruct (Py.lt freq (Py.Int 3)); [apply silent_print_ret|].
  apply silent_of_never, never_bind. intros _.
  apply never_ret, true_is_not_false.
Qed.

Lemma silent_controlSwitch (switch : Z) (state : bool) :
  silent_on false (Daq34972.controlSwitch switch state).
Proof.
  unfold Daq34972.controlSwitch.
  destruct (negb ((101 <=? switch) && (switch <=? 399)));
    [apply silent_print_ret|].
  apply silent_of_never, never_bind. intros _.
  apply never_ret, true_is_not_false.
Qed.

Lemma silent_readSwitch (switch : Z) (delay : Py.num) :
  silent_on (VBool false) (Daq34972.readSwitch switch delay).
Proof.
  unfold Daq34972.readSwitch.
  destruct (negb ((101 <=? switch) && (switch <=? 399)));
    [apply silent_print_ret|].
  apply silent_of_never, never_bind. intros reading.
  apply never_bind. intros volt. apply never_ret. discriminate.
Qed.

(** X1.  A method of [Daq34972] that returns [False] has sent nothing to
    the instrument: [configScan], [configAcFilter] and [controlSwitch]
    reject before their first write, and so does [readSwitch]. *)
Theorem Daq34972_rejection_sends_nothing (w : world H) :
  (forall scanList func rng nplc,
      fst (Daq34972.configScan scanList func rng nplc w) = Ret false ->
      handle (snd (Daq34972.configScan scanList func rng nplc w)) = handle w)
  /\
  (forall scanList freq,
      fst (Daq34972.configAcFilter scanList freq w) = Ret false ->
      handle (snd (Daq34972.configAcFilter scanList freq w)) = handle w)
  /\
  (forall switch state,
      fst (Daq34972.controlSwitch switch state w) = Ret false ->
      handle (snd (Daq34972.controlSwitch switch state w)) = handle w)
  /\
  (forall switch delay,
      fst (Daq34972.readSwitch switch delay w) = Ret (VBool false) ->
      handle (snd (Daq34972.readSwitch switch delay w)) = handle w).
Proof.
  repeat split; intros.
  - apply silent_configScan. assumption.
  - apply silent_configAcFilter. assumption.
  - apply silent_controlSwitch. assumption.
  - apply silent_readSwitch. assumption.
Qed.

Lemma silent_config (func : string) (rng : arg) (nplc : Py.num)
    (aZero : bool) :
  silent_on false (Dvm34411.config func rng nplc aZero).
Proof.
  unfold Dvm34411.config.
  match goal with |- silent_on _ (if ?c then _ else _) => destruct c end;
    [apply silent_print_ret|].
  apply silent_bind; [frame|]. intros [b|strRng].
  - apply silent_of_keeps. frame.
  - match goal with |- silent_on _ (if ?c then _ else _) => destruct c end;
      [apply silent_print_ret|].
    apply silent_of_never, never_bind. intros _.
    apply never_ret, true_is_not_false.
Qed.

Lemma silent_configDmm (slots : list string) (func : string) (rng : arg)
    (nplc : Py.num) :
  silent_on false (Daq3706.configDmm func rng nplc).
Proof.
  unfold Daq3706.configDmm.
  match goal with |- silent_on _ (if ?c then _ else _) => destruct c end;
    [apply silent_print_ret|].
  apply silent_bind; [frame|]. intros [b|r].
  - apply silent_of_keeps. frame.
  - match goal with |- silent_on _ (if ?c then _ else _) => destruct c end;
      [apply silent_print_ret|].
    apply silent_of_never, never_bind. intros _.
    apply never_ret, true_is_not_false.
Qed.

Lemma silent_controlSwitch_3706 (slots : list string) (switch : Z)
    (state : bool) :
  silent_on false (Daq3706.controlSwitch slots switch state).
Proof.
  unfold Daq3706.controlSwitch.
  apply silent_bind; [apply handle_checkSwitchNumber|]. intros ok.
  destruct (negb ok); [apply silent_print_ret|].
  apply silent_of_never, never_bind. intros _.
  apply never_ret, true_is_not_false.
Qed.

Lemma silent_configAcFilter_3706 (slots : list string) (scanList : string)
    (freq : Py.num) :
  silent_on false (Daq3706.configAcFilter slots scanList freq).
Proof.
  unfold Daq3706.configAcFilter.
  apply silent_bind; [apply handle_checkList_3706|]. intros ok.
  destruct (Bool.eqb ok false); [apply silent_print_ret|].
  destruct (Py.lt freq (Py.Int 3)); [apply silent_print_ret|].
  apply silent_of_never, never_bind. intros _.
  apply never_ret, true_is_not_false.
Qed.

(** X2.  [Dvm34411.config] and, in [Daq3706], [configDmm],
    [controlSwitch] and [configAcFilter] have sent nothing when they
    return [False]. *)
Theorem config_rejection_sends_nothing (slots : list string) (w : world H) :
  (forall func rng nplc aZero,
      fst (Dvm34411.config func rng nplc aZero w) = Ret false ->
      handle (snd (Dvm34411.config func rng nplc aZero w)) = handle w)
  /\
  (forall func rng nplc,
      fst (Daq3706.configDmm func rng nplc w) = Ret false ->
      handle (snd (Daq3706.configDmm func rng nplc w)) = handle w)
  /\
  (forall switch state,
      fst (Daq3706.controlSwitch slots switch state w) = Ret false ->
      handle (snd (Daq3706.controlSwitch slots switch state w)) = handle w)
  /\
  (forall scanList freq,
      fst (Daq3706.configAcFilter slots scanList freq w) = Ret false ->
      handle (snd (Daq3706.configAcFilter slots scanList freq w)) = handle w).
Proof.
  repeat split; intros.
  - apply silent_config. assumption.
  - apply (silent_configDmm slots). assumption.
  - apply silent_controlSwitch_3706. assumption.
  - apply silent_configAcFilter_3706. assumption.
Qed.

End Silent.

Lemma Daq34972_rejection_sends_nothing_witness :
  fst (Daq34972.configScan "101" "volt:dc" (ANum (Py.Int 1000)) (Py.Int 1)
         (bench [])) = Ret false /\
  sent (handle (snd (Daq34972.configScan "101" "volt:dc" (ANum (Py.Int 1000))
                       (Py.Int 1) (bench [])))) = [] /\
  handle (snd (Daq34972.readSwitch 400 (Py.Int 0) (bench ["1.0"])))
    = handle (bench ["1.0"]).
Proof.
  split; [vm_compute; reflexivity|]. split.
  - rewrite (proj1 (Daq34972_rejection_sends_nothing (T := Sim_Transport)
                      (bench [])) "101" "volt:dc" (ANum (Py.Int 1000))
               (Py.Int 1)); [reflexivity|vm_compute; reflexivity].
  - apply (proj2 (proj2 (proj2
             (Daq34972_rejection_sends_nothing (T := Sim_Transport)
                (bench ["1.0"])))) 400 (Py.Int 0)).
    reflexivity.
Defined.

Lemma config_rejection_sends_nothing_witness :
  fst (Dvm34411.config "volt:dc" (AStr "AUTO") (Py.Int 1000) true (bench []))
    = Ret false /\
  handle (snd (Dvm34411.config "volt:dc" (AStr "AUTO") (Py.Int 1000) true
                 (bench []))) = handle (bench []).
Proof.
  split; [vm_compute; reflexivity|].
  apply (proj1 (config_rejection_sends_nothing (T := Sim_Transport) []
                  (bench [])) "volt:dc" (AStr "AUTO") (Py.Int 1000) true).
  vm_compute. reflexivity.
Defined.

(* ================================================================== *)
(** * More on channel lists *)
(* ================================================================== *)

Lemma split_nonempty (sep : ascii) (s : string) : Py.split sep s <> [].
Proof.
  destruct s as [|c r]; simpl; [discriminate|].
  destruct (Ascii.eqb c sep); [discriminate|].
  destruct (Py.split sep r); discriminate.
Qed.

(** Splitting at a separator that joins two strings. *)
Lemma split_join (sep : ascii) (a b : string) :
  Py.split sep (a ++ String sep b) = (Py.split sep a ++ Py.split sep b)%list.
Proof.
  induction a as [|c a IH]; simpl.
  - rewrite Ascii.eqb_refl. reflexivity.
  - destruct (Ascii.eqb c sep); [rewrite IH; reflexivity|].
    rewrite IH. pose proof (split_nonempty sep a) as N.
    destruct (Py.split sep a) as [|h t]; [destruct (N eq_refl)|reflexivity].
Qed.

Lemma lstrip_spaces (l s : string) :
  all_space l = true -> Py.lstrip (l ++ s) = Py.lstrip s.
Proof.
  induction l as [|c l IH]; simpl; [reflexivity|].
  intros E. apply andb_prop in E. destruct E as [Ec El].
  rewrite Ec. exact (IH El).
Qed.

Lemma rstrip_only_spaces (r : string) :
  all_space r = true -> Py.rstrip r = EmptyString.
Proof.
  induction r as [|c r IH]; simpl; [reflexivity|].
  intros E. apply andb_prop in E. destruct E as [Ec Er].
  rewrite (IH Er), Ec. reflexivity.
Qed.

Lemma rstrip_spaces (s r : string) :
  all_space r = true -> Py.rstrip (s ++ r) = Py.rstrip s.
Proof.
  intros Er. induction s as [|c s IH]; simpl.
  - apply rstrip_only_spaces. exact Er.
  - rewrite IH. reflexivity.
Qed.

Lemma lstrip_only_spaces (l : string) :
  all_space l = true -> Py.lstrip l = EmptyString.
Proof.
  induction l as [|c l IH]; simpl; [reflexivity|].
  intros E. apply andb_prop in E. destruct E as [Ec El].
  rewrite Ec. exact (IH El).
Qed.

Lemma lstrip_cases (s : string) :
  (all_space s = true /\ Py.lstrip s = EmptyString) \/
  (exists c t, Py.lstrip s = String c t /\ Py.is_space c = false /\
               forall r, Py.lstrip (s ++ r) = (String c t ++ r)%string).
Proof.
  induction s as [|c s IH]; simpl.
  - left. split; reflexivity.
  - destruct (Py.is_space c) eqn:Ec.
    + destruct IH as [[Ha Hl]|(c' & t & Hl & Hc & Hr)].
      * left. split; assumption.
      * right. exists c', t. split; [exact Hl|]. split; [exact Hc|].
        intros r. apply Hr.
    + right. exists c, s. split; [reflexivity|]. split; [exact Ec|].
      intros r. reflexivity.
Qed.

(** White space around a string does not change what [strip] gives. *)
Lemma strip_padding (l s r : string) :
  all_space l = true -> all_space r = true ->
  Py.strip (l ++ s ++ r) = Py.strip s.
Proof.
  intros El Er. unfold Py.strip. rewrite (lstrip_spaces l _ El).
  destruct (lstrip_cases s) as [[Ha Hl]|(c & t & Hl & Hc & Hr)].
  - rewrite (lstrip_spaces s r Ha), Hl, (lstrip_only_spaces r Er). reflexivity.
  - rewrite Hr, Hl. apply rstrip_spaces. exact Er.
Qed.

Section MoreChannelLists.
Context {H : Type} {T : Transport H}.

Lemma for_each_app {A R} (body : A -> M (H := H) (option R)) (l1 l2 : list A)
    (after : M R) (w : world H) :
  for_each body (l1 ++ l2) after w
  = for_each body l1 (for_each body l2 after) w.
Proof.
  revert w. induction l1 as [|x l1 IH]; intros w; simpl; [reflexivity|].
  unfold bind. destruct (body x w) as [[[v|]|e] w']; try reflexivity.
  apply IH.
Qed.

(** The three ways in which the body of [Daq34972.checkList] ends. *)
Lemma checkItem_cases (item : string) (w : world H) :
  Daq34972.checkItem item w = (Ret None, w) \/
  (exists line,
      Daq34972.checkItem item w
      = (Ret (Some false), with_console (console w ++ [line]) w)) \/
  (exists e, Daq34972.checkItem item w = (Raise e, w)).
Proof.
  unfold Daq34972.checkItem.
  destruct (negb (Py.find ":" (Py.strip item) =? -1)).
  - destruct (Py.split ":" (Py.strip item)) as [|a [|b [|c l]]];
      try (right; right; eexists; reflexivity).
    destruct (Py.int a) as [e|x]; [right; right; eexists; reflexivity|].
    destruct (Py.int b) as [e|y]; [right; right; eexists; reflexivity|].
    cbn [lift bind ret]. destruct (x >? y);
      [right; left; eexists; reflexivity|].
    destruct (negb ((101 <=? x) && (x <=? 399) && ((101 <=? y) && (y <=? 399))));
      [right; left; eexists; reflexivity|left; reflexivity].
  - destruct (Py.int (Py.strip item)) as [e|n];
      [right; right; eexists; reflexivity|].
    cbn [lift bind ret].
    destruct (negb ((101 <=? n) && (n <=? 440)));
      [right; left; eexists; reflexivity|left; reflexivity].
Qed.

Lemma checkItems_effect (items : list string) (w : world H) :
  match for_each Daq34972.checkItem items (ret true) w with
  | (Ret true, w') => w' = w
  | (Ret false, w') =>
      exists line, w' = with_console (console w ++ [line]) w
  | (Raise e, w') => w' = w
  end.
Proof.
  induction items as [|item items IH]; simpl; [reflexivity|].
  unfold bind.
  destruct (checkItem_cases item w) as [E|[(line & E)|(e & E)]]; rewrite E.
  - exact IH.
  - simpl. exists line. reflexivity.
  - reflexivity.
Qed.

(** X3.  [Daq34972.checkList] touches nothing but the console: it prints
    nothing when it returns [True] or raises, and exactly one line when
    it returns [False]; session, clock, log and error counter are as
    before. *)
Theorem checkList_only_prints (chlist : string) (w : world H) :
  match Daq34972.checkList chlist w with
  | (Ret true, w') => w' = w
  | (Ret false, w') =>
      exists line, w' = with_console (console w ++ [line]) w
  | (Raise e, w') => w' = w
  end.
Proof. unfold Daq34972.checkList. apply checkItems_effect. Qed.

Lemma checkItems_then (l1 l2 : list string) (w : world H) :
  for_each Daq34972.checkItem l1 (for_each Daq34972.checkItem l2 (ret true)) w
  = (ok <- for_each Daq34972.checkItem l1 (ret true) ;;
     if ok then for_each Daq34972.checkItem l2 (ret true) else ret false) w.
Proof.
  revert w. induction l1 as [|x l1 IH]; intros w; simpl.
  - unfold bind, ret. destruct (for_each Daq34972.checkItem l2 (ret true) w)
      as [[[]|]]; reflexivity.
  - unfold bind.
    destruct (checkItem_cases x w) as [E|[(line & E)|(e & E)]]; rewrite E.
    + rewrite IH. unfold bind. reflexivity.
    + reflexivity.
    + reflexivity.
Qed.

(** X4.  [Daq34972.checkList] on two lists joined by a comma is
    [checkList] of the first and, when that returns [True], [checkList]
    of the second: the first fault decides, and what follows it is not
    looked at. *)
Theorem checkList_of_joined_lists (a b : string) (w : world H) :
  Daq34972.checkList (a ++ String "," b) w
  = (ok <- Daq34972.checkList a ;;
     if ok then Daq34972.checkList b else ret false) w.
Proof.
  unfold Daq34972.checkList. rewrite split_join, for_each_app.
  apply checkItems_then.
Qed.

(** X5.  White space around an item does not change what [checkList]
    makes of the item, in [Daq34972] and in [Daq3706]. *)
Theorem checkItem_ignores_padding (slots : list string) (l item r : string)
    (w : world H) :
  all_space l = true ->
  all_space r = true ->
  Daq34972.checkItem (l ++ item ++ r) w = Daq34972.checkItem item w /\
  Daq3706.checkItem slots (l ++ item ++ r) w = Daq3706.checkItem slots item w.
Proof.
  intros El Er. unfold Daq34972.checkItem, Daq3706.checkItem.
  rewrite (strip_padding l item r El Er). split; reflexivity.
Qed.

(** The body of [Daq3706.checkList] never falls through on an item
    without a colon. *)
Lemma checkItem_3706_single (slots : list string) (item : string)
    (w : world H) :
  Py.find ":" (Py.strip item) = -1 ->
  exists e, Daq3706.checkItem slots item w = (Raise e, w).
Proof.
  intros E. unfold Daq3706.checkItem. rewrite E, Z.eqb_refl. cbn [negb].
  destruct (Py.int (Py.strip item)) as [e|n]; eexists; reflexivity.
Qed.

Lemma never_raise {A} (bad : A) (e : Py.exn) :
  never_returns (H := H) bad (raise e).
Proof. intros w E. discriminate E. Qed.

Lemma never_true_checkItem_3706 (slots : list string) (item : string) :
  never_returns (H := H) (Some true) (Daq3706.checkItem slots item).
Proof.
  unfold Daq3706.checkItem.
  destruct (negb (Py.find ":" (Py.strip item) =? -1)).
  - destruct (Py.split ":" (Py.strip item)) as [|a [|b [|c l]]];
      try apply never_raise.
    apply never_bind. intros x. apply never_bind. intros y.
    destruct (x >? y).
    + apply never_bind. intros _. apply never_ret. discriminate.
    + apply never_bind. intros okFrom. apply never_bind. intros bad.
      destruct bad; [|apply never_ret; discriminate].
      apply never_bind. intros _. apply never_ret. discriminate.
  - apply never_bind. intros chan. apply never_raise.
Qed.

(** X6.  [Daq3706.checkList] returns [True] only for lists made of
    ranges: an item without a colon always ends in an exception (a
    [ValueError] of [int], or the [AttributeError] of the misspelt
    [chsckSwitchNumber]). *)
Theorem checkList_3706_accepts_ranges_only (slots : list string)
    (chlist : string) (w : world H) :
  fst (Daq3706.checkList slots chlist w) = Ret true ->
  Forall (fun item => Py.find ":" (Py.strip item) <> -1)
         (Py.split "," chlist).
Proof.
  unfold Daq3706.checkList. generalize (Py.split "," chlist) as items.
  intros items. revert w.
  induction items as [|item items IH]; intros w E; [constructor|].
  cbn [for_each] in E. unfold bind in E.
  destruct (Z.eq_dec (Py.find ":" (Py.strip item)) (-1)) as [F|F].
  - destruct (checkItem_3706_single slots item w F) as (e & R).
    rewrite R in E. discriminate E.
  - constructor; [exact F|].
    pose proof (never_true_checkItem_3706 slots item w) as N.
    destruct (Daq3706.checkItem slots item w) as [[[v|]|e] w'];
      [| |discriminate E].
    + simpl in E, N. injection E as ->. destruct (N eq_refl).
    + exact (IH w' E).
Qed.

End MoreChannelLists.

Lemma checkItem_ignores_padding_witness :
  all_space "  " = true /\
  Daq34972.checkItem ("  " ++ "201:205" ++ " ") (bench [])
    = Daq34972.checkItem "201:205" (bench []).
Proof.
  split; [reflexivity|].
  apply (proj1 (checkItem_ignores_padding (H := Sim) [] "  " "201:205" " "
                  (bench []) eq_refl eq_refl)).
Defined.

Lemma checkList_3706_accepts_ranges_only_witness :
  fst (Daq3706.checkList ["3720"; "3720"; "3720"; "3720"; "3720"; "3720"]
         "1001:1005, 2010:2020" (bench [])) = Ret true /\
  Forall (fun item => Py.find ":" (Py.strip item) <> -1)
         (Py.split "," "1001:1005, 2010:2020").
Proof.
  split; [reflexivity|].
  apply (checkList_3706_accepts_ranges_only (H := Sim)
           ["3720"; "3720"; "3720"; "3720"; "3720"; "3720"]
           "1001:1005, 2010:2020" (bench [])).
  reflexivity.
Defined.

(* ================================================================== *)
(** * Switch numbers of the six-slot mainframe *)
(* ================================================================== *)

(** A one-character string that [int] accepts is a digit. *)
Lemma int_of_char_range (c : ascii) (v : Z) :
  Py.int (String c EmptyString) = inr v -> 0 <= v <= 9.
Proof.
  destruct c as [[] [] [] [] [] [] [] []]; intros E;
    try discriminate E; injection E as <-; vm_compute; split; discriminate.
Qed.

Lemma index_zero (s first : string) :
  Py.index s 0 = inr first ->
  exists c r, s = String c r /\ first = String c EmptyString.
Proof.
  destruct s as [|c r]; unfold Py.index; simpl; intros E;
    [discriminate E|].
  injection E as <-. exists c, r. split; reflexivity.
Qed.

Lemma on_card_range (top n : Z) :
  Daq3706.on_card top n = true -> 1 <= n <= top \/ 911 <= n <= 916.
Proof.
  unfold Daq3706.on_card. intros E. apply orb_prop in E.
  destruct E as [E|E]; apply andb_prop in E; destruct E as [E1 E2].
  - left. apply Z.leb_le in E1. apply Z.geb_le in E2. lia.
  - right. apply Z.leb_le in E1, E2. lia.
Qed.

Section Switches.
Context {H : Type} {T : Transport H}.

(** What a [True] of [Daq3706.checkSwitchNumber] stands for. *)
Lemma checkSwitchNumber_true_inv (slots : list string) (switch : Z)
    (w w' : world H) :
  Daq3706.checkSwitchNumber slots switch w = (Ret true, w') ->
  w' = w /\
  List.length slots = 6%nat /\
  exists (c : ascii) (rest : string) (slot n : Z) (card : string) (top : Z),
    Py.str_int switch = String c rest /\
    Py.int (String c EmptyString) = inr slot /\
    Py.int rest = inr n /\
    1 <= slot <= 6 /\
    nth_error slots (Z.to_nat (slot - 1)) = Some card /\
    In (card, top) cards /\
    (1 <= n <= top \/ 911 <= n <= 916).
Proof.
  unfold Daq3706.checkSwitchNumber.
  destruct (Z.eqb_spec (Z.of_nat (List.length slots)) 6) as [L|L];
    cbn [negb]; [|intros E; discriminate E].
  destruct (Py.index (Py.str_int switch) 0) as [e|first] eqn:Ei;
    cbn [lift bind ret raise]; [intros E; discriminate E|].
  destruct (index_zero _ _ Ei) as (c & rest & Es & ->).
  destruct (Py.int (String c EmptyString)) as [e|slot] eqn:Eslot;
    cbn [lift bind ret raise]; [intros E; discriminate E|].
  rewrite Es. cbn [Py.slice_from].
  destruct (Py.int rest) as [e|n] eqn:En;
    cbn [lift bind ret raise]; [intros E; discriminate E|].
  pose proof (int_of_char_range c slot Eslot) as Hslot.
  destruct ((slot =? 0) || (slot >? 6)) eqn:Ebad;
    [intros E; discriminate E|].
  apply orb_false_elim in Ebad. destruct Ebad as [E0 E6].
  apply Z.eqb_neq in E0. rewrite Z.gtb_ltb in E6. apply Z.ltb_ge in E6.
  unfold Daq3706.slot_type.
  replace (slot - 1 <? 0) with false by (symmetry; apply Z.ltb_ge; lia).
  destruct (nth_error slots (Z.to_nat (slot - 1))) as [card|] eqn:Ecard;
    cbn [lift bind ret raise]; [|intros E; discriminate E].
  assert (forall top,
             In (card, top) cards -> Daq3706.on_card top n = true ->
             w = w ->
             w = w /\ List.length slots = 6%nat /\
             exists (c0 : ascii) (rest0 : string) (slot0 n0 : Z)
                    (card0 : string) (top0 : Z),
               String c rest = String c0 rest0 /\
               Py.int (String c0 EmptyString) = inr slot0 /\
               Py.int rest0 = inr n0 /\
               1 <= slot0 <= 6 /\
               nth_error slots (Z.to_nat (slot0 - 1)) = Some card0 /\
               In (card0, top0) cards /\
               (1 <= n0 <= top0 \/ 911 <= n0 <= 916)) as Done.
  { intros top Hin Hon _. split; [reflexivity|]. split; [lia|].
    exists c, rest, slot, n, card, top.
    repeat split; try assumption; try lia.
    apply on_card_range. exact Hon. }
  destruct (String.eqb_spec card "Empty Slot") as [->|_];
    [intros E; discriminate E|].
  destruct (String.eqb_spec card "3722") as [->|_].
  { destruct (Daq3706.on_card 96 n) eqn:Hon; intros E;
      [|discriminate E].
    injection E as <-. apply (Done 96); [left; reflexivity|exact Hon|reflexivity]. }
  destruct (String.eqb_spec card "3720") as [->|_].
  { destruct (Daq3706.on_card 60 n) eqn:Hon; intros E;
      [|discriminate E].
    injection E as <-.
    apply (Done 60); [right; left; reflexivity|exact Hon|reflexivity]. }
  destruct (String.eqb_spec card "3721") as [->|_].
  { destruct (Daq3706.on_card 42 n) eqn:Hon; intros E;
      [|discriminate E].
    injection E as <-.
    apply (Done 42); [right; right; left; reflexivity|exact Hon|reflexivity]. }
  destruct (String.eqb_spec card "3723") as [->|_].
  { destruct (Daq3706.on_card 60 n) eqn:Hon; intros E;
      [|discriminate E].
    injection E as <-.
    apply (Done 60);
      [right; right; right; left; reflexivity|exact Hon|reflexivity]. }
  intros E. discriminate E.
Qed.

(** X7.  When [Daq3706.checkSwitchNumber] returns [True] it has printed
    nothing, six slots are known, the first digit of the number is a slot
    from 1 to 6 that holds a 3722, 3720, 3721 or 3723 card, and the rest
    of the digits is a switch of that card (1..96, 1..60, 1..42, 1..60)
    or a backplane relay 911..916. *)
Theorem checkSwitchNumber_sound (slots : list string) (switch : Z)
    (w : world H) :
  fst (Daq3706.checkSwitchNumber slots switch w) = Ret true ->
  snd (Daq3706.checkSwitchNumber slots switch w) = w /\
  List.length slots = 6%nat /\
  exists (c : ascii) (rest : string) (slot n : Z) (card : string) (top : Z),
    Py.str_int switch = String c rest /\
    Py.int (String c EmptyString) = inr slot /\
    Py.int rest = inr n /\
    1 <= slot <= 6 /\
    nth_error slots (Z.to_nat (slot - 1)) = Some card /\
    In (card, top) cards /\
    (1 <= n <= top \/ 911 <= n <= 916).
Proof.
  intros E.
  destruct (Daq3706.checkSwitchNumber slots switch w) as [r w'] eqn:R.
  simpl in E. subst r.
  exact (checkSwitchNumber_true_inv slots switch w w' R).
Qed.

(** X8.  The ways in which [Daq3706.checkSwitchNumber] does not answer:
    without six known slots it returns [False] for every number; with
    them, a negative number and a number of one digit raise
    [ValueError] ([int('-')] and [int('')]) instead of returning
    [False]. *)
Theorem checkSwitchNumber_edges (slots : list string) (switch : Z)
    (w : world H) :
  (List.length slots <> 6%nat ->
   Daq3706.checkSwitchNumber slots switch w =
     (Ret false,
      with_console
        (console w ++
         [[Lit "Daq3706.checkSwitchNumber() - No cards in slots detected !"]])
        w)) /\
  (List.length slots = 6%nat -> switch < 0 ->
   Daq3706.checkSwitchNumber slots switch w = (Raise Py.ValueError, w)) /\
  (List.length slots = 6%nat -> 0 <= switch <= 9 ->
   Daq3706.checkSwitchNumber slots switch w = (Raise Py.ValueError, w)).
Proof.
  unfold Daq3706.checkSwitchNumber. repeat split.
  - intros L.
    destruct (Z.eqb_spec (Z.of_nat (List.length slots)) 6) as [E|E];
      [lia|reflexivity].
  - intros L Hneg. rewrite L. cbn [Z.of_nat Pos.of_succ_nat Pos.succ Z.eqb Pos.eqb negb].
    destruct switch as [|p|p]; try lia. reflexivity.
  - intros L Hd. rewrite L. cbn [Z.of_nat Pos.of_succ_nat Pos.succ Z.eqb Pos.eqb negb].
    assert (switch = 0 \/ switch = 1 \/ switch = 2 \/ switch = 3 \/
            switch = 4 \/ switch = 5 \/ switch = 6 \/ switch = 7 \/
            switch = 8 \/ switch = 9) as Cases by lia.
    repeat (destruct Cases as [->|Cases]; [reflexivity|]).
    subst switch. reflexivity.
Qed.

End Switches.

Lemma checkSwitchNumber_sound_witness :
  fst (Daq3706.checkSwitchNumber
         ["3720"; "3721"; "Empty Slot"; "3723"; "3720"; "3722"] 6096
         (bench [])) = Ret true /\
  List.length ["3720"; "3721"; "Empty Slot"; "3723"; "3720"; "3722"] = 6%nat.
Proof.
  split; [reflexivity|].
  exact (proj1 (proj2 (checkSwitchNumber_sound (H := Sim)
                         ["3720"; "3721"; "Empty Slot"; "3723"; "3720"; "3722"]
                         6096 (bench []) eq_refl))).
Defined.

Lemma checkSwitchNumber_edges_witness :
  Daq3706.checkSwitchNumber
    ["3720"; "3721"; "Empty Slot"; "3723"; "3720"; "3722"] (-1005) (bench [])
  = (Raise Py.ValueError, bench []) /\
  Daq3706.checkSwitchNumber
    ["3720"; "3721"; "Empty Slot"; "3723"; "3720"; "3722"] 7 (bench [])
  = (Raise Py.ValueError, bench []).
Proof.
  split.
  - apply (proj1 (proj2 (checkSwitchNumber_edges (H := Sim)
                           ["3720"; "3721"; "Empty Slot"; "3723"; "3720"; "3722"]
                           (-1005) (bench [])))); [reflexivity|lia].
  - apply (proj2 (proj2 (checkSwitchNumber_edges (H := Sim)
                           ["3720"; "3721"; "Empty Slot"; "3723"; "3720"; "3722"]
                           7 (bench [])))); [reflexivity|lia].
Defined.

Section Slots.
Context {H : Type} {T : Transport H}.

Lemma scanLoop_returns (todo : list Z) :
  forall (slots0 : list string) (any0 : bool) (w : world H) (b : bool)
         (slots : list string) (w' : world H),
    Daq3706.scanLoop todo slots0 any0 w = (Ret b, slots, w') ->
    exists new,
      slots = (slots0 ++ new)%list /\
      List.length new = List.length todo /\
      b = any0 || existsb (fun t => negb (String.eqb t "Empty Slot")) new.
Proof.
  induction todo as [|i todo IH]; intros slots0 any0 w b slots w' E.
  - cbn in E. injection E as <- <- <-. exists [].
    rewrite app_nil_r, orb_false_r. repeat split.
  - cbn [Daq3706.scanLoop] in E.
    destruct (ask _ w) as [[idn|e] w1]; [|discriminate E].
    destruct (Daq3706.slotType idn) as [e|t]; [discriminate E|].
    destruct (IH _ _ _ _ _ _ E) as (new & -> & L & ->).
    exists (t :: new). rewrite <- app_assoc. split; [reflexivity|].
    split; [simpl; rewrite L; reflexivity|].
    cbn [existsb]. destruct (negb (String.eqb t "Empty Slot")), any0;
      reflexivity.
Qed.

(** A list of slots without a card in any of them validates no switch. *)
Lemma no_card_no_switch (slots : list string) (switch : Z) (w : world H) :
  existsb (fun t => negb (String.eqb t "Empty Slot")) slots = false ->
  fst (Daq3706.checkSwitchNumber slots switch w) <> Ret true.
Proof.
  intros Hnone E.
  destruct (Daq3706.checkSwitchNumber slots switch w) as [r w'] eqn:R.
  simpl in E. subst r.
  destruct (checkSwitchNumber_true_inv slots switch w w' R)
    as (_ & _ & c & rest & slot & n & card & top & _ & _ & _ & _ & Hc & Hin & _).
  assert (existsb (fun t => negb (String.eqb t "Empty Slot")) slots = true)
    as Hsome.
  { apply existsb_exists. exists card. split.
    - exact (nth_error_In _ _ Hc).
    - destruct Hin as [Eq|[Eq|[Eq|[Eq|[]]]]]; injection Eq as <- _;
        reflexivity. }
  rewrite Hnone in Hsome. discriminate Hsome.
Qed.

(** X9.  When [Daq3706.scanSlots] returns, [self.slots] has exactly six
    entries, and the result is [True] exactly when one of them is not
    ['Empty Slot']; after a [False], [checkSwitchNumber] accepts no switch
    number at all. *)
Theorem scanSlots_fills_six_slots (w w' : world H) (b : bool)
    (slots : list string) :
  Daq3706.scanSlots w = (Ret b, slots, w') ->
  List.length slots = 6%nat /\
  (b = true <-> exists t, In t slots /\ t <> "Empty Slot") /\
  (b = false ->
   forall (switch : Z) (w2 : world H),
     fst (Daq3706.checkSwitchNumber slots switch w2) <> Ret true).
Proof.
  unfold Daq3706.scanSlots. intros E.
  destruct (Daq3706.scanLoop [1; 2; 3; 4; 5; 6] [] false w)
    as [[[any|e] slots1] w1] eqn:R; [|discriminate E].
  destruct (scanLoop_returns _ _ _ _ _ _ _ R) as (new & -> & L & ->).
  cbn [app orb] in E, R |- *.
  assert (b = existsb (fun t => negb (String.eqb t "Empty Slot")) new
          /\ slots = new) as [-> ->].
  { destruct (existsb _ new); cbn [negb] in E; injection E as <- <- _;
      split; reflexivity. }
  split; [exact L|]. split.
  - rewrite existsb_exists. split.
    + intros (t & Hin & Ht). exists t. split; [exact Hin|].
      intros ->. discriminate Ht.
    + intros (t & Hin & Ht). exists t. split; [exact Hin|].
      destruct (String.eqb_spec t "Empty Slot") as [->|_];
        [destruct (Ht eq_refl)|reflexivity].
  - intros Hnone switch w2. apply no_card_no_switch. exact Hnone.
Qed.

End Slots.

Lemma scanSlots_fills_six_slots_witness :
  Daq3706.scanSlots
    (bench ["3720,x"; "Pseudo, 3721 "; "Empty Slot"; "Empty Slot";
            "Empty Slot"; "3722"])
  = (Ret true,
     ["3720"; "3721"; "Empty Slot"; "Empty Slot"; "Empty Slot"; "3722"],
     with_handle
       {| sent := [ [Lit "print(slot[1].idn)"]; [Lit "print(slot[2].idn)"];
                    [Lit "print(slot[3].idn)"]; [Lit "print(slot[4].idn)"];
                    [Lit "print(slot[5].idn)"]; [Lit "print(slot[6].idn)"] ];
          inbox := [] |}
       (bench ["3720,x"; "Pseudo, 3721 "; "Empty Slot"; "Empty Slot";
               "Empty Slot"; "3722"])) /\
  List.length
    ["3720"; "3721"; "Empty Slot"; "Empty Slot"; "Empty Slot"; "3722"]
  = 6%nat.
Proof.
  split; [reflexivity|].
  exact (proj1 (scanSlots_fills_six_slots (T := Sim_Transport) _ _ _ _
                  (eq_refl :
                     Daq3706.scanSlots
                       (bench ["3720,x"; "Pseudo, 3721 "; "Empty Slot";
                               "Empty Slot"; "Empty Slot"; "3722"])
                     = (Ret true,
                        ["3720"; "3721"; "Empty Slot"; "Empty Slot";
                         "Empty Slot"; "3722"], _)))).
Defined.

(* ================================================================== *)
(** * More on block replies and draining *)
(* ================================================================== *)

Lemma int_of_non_digit (c : ascii) :
  Py.is_digit c = false ->
  Py.int (String c EmptyString) = inl Py.ValueError.
Proof.
  destruct c as [[] [] [] [] [] [] [] []]; intros E;
    try discriminate E; reflexivity.
Qed.

Section MoreBlocks.
Context {H : Type} {T : Transport H}.

(** X10.  The block decoders at the edges of a reply: an empty reply and
    a lone ['#'] raise [IndexError]; a reply that does not start with
    ['#'] makes them print the format error and return [False]; a
    character after ['#'] that is no digit raises [ValueError]. *)
Theorem decodeBlock_edges (c : ascii) (rest : string) (w : world H) :
  Daq34972.decodeBlock EmptyString w = (Raise Py.IndexError, w) /\
  Dvm34411.decodeBlock EmptyString w = (Raise Py.IndexError, w) /\
  Daq34972.decodeBlock "#" w = (Raise Py.IndexError, w) /\
  Dvm34411.decodeBlock "#" w = (Raise Py.IndexError, w) /\
  (c <> "#"%char ->
   Daq34972.decodeBlock (String c rest) w =
     (Ret None,
      with_console
        (console w ++ [[Lit "Daq34972.DLB format error - # expected !"]]) w)
   /\
   Dvm34411.decodeBlock (String c rest) w =
     (Ret None,
      with_console
        (console w ++ [[Lit "Dvm34411.DLB format error - # expected !"]]) w))
  /\
  (Py.is_digit c = false ->
   Daq34972.decodeBlock (String "#" (String c rest)) w
     = (Raise Py.ValueError, w) /\
   Dvm34411.decodeBlock (String "#" (String c rest)) w
     = (Raise Py.ValueError, w)).
Proof.
  repeat split; try reflexivity.
  - unfold Daq34972.decodeBlock. cbn [Py.index String.get lift bind ret].
    destruct (String.eqb_spec (String c EmptyString) "#") as [E|_];
      [injection E as E; destruct (H0 E)|reflexivity].
  - unfold Dvm34411.decodeBlock. cbn [Py.index String.get lift bind ret].
    destruct (String.eqb_spec (String c EmptyString) "#") as [E|_];
      [injection E as E; destruct (H0 E)|reflexivity].
  - unfold Daq34972.decodeBlock, after_block_header.
    cbn [Py.index String.get lift bind ret].
    rewrite (int_of_non_digit c H0). reflexivity.
  - unfold Dvm34411.decodeBlock, after_block_header.
    cbn [Py.index String.get lift bind ret].
    rewrite (int_of_non_digit c H0). reflexivity.
Qed.

(** What [Daq34972.drain] returns when it returns a list. *)
Lemma drain_list (n : nat) :
  forall (acc : list value) (w w' : world H) (l : list value),
    Daq34972.drain n acc w = (Ret (VList l), w') ->
    exists new, l = (acc ++ new)%list /\ List.length new = n /\
                forallb is_float new = true.
Proof.
  induction n as [|n IH]; intros acc w w' l E.
  - cbn in E. injection E as <- _. exists []. rewrite app_nil_r.
    repeat split.
  - cbn [Daq34972.drain] in E. unfold bind at 1 in E.
    destruct (reraising _ (ask _) w) as [[reading|e] w1]; [|discriminate E].
    unfold bind at 1 in E.
    destruct (Daq34972.decodeBlock reading w1) as [[[rdg|]|e] w2];
      try discriminate E.
    destruct (IH _ _ _ _ E) as (new & -> & L & F).
    exists (VNum (Py.Float rdg) :: new). rewrite <- app_assoc.
    split; [reflexivity|]. split; [simpl; rewrite L; reflexivity|exact F].
Qed.

Lemma drain_text_list (n : nat) :
  forall (acc : list value) (w w' : world H) (l : list value),
    Dvm34411.drain n acc w = (Ret (VList l), w') ->
    exists new, l = (acc ++ new)%list /\ List.length new = n /\
                forallb is_str new = true.
Proof.
  induction n as [|n IH]; intros acc w w' l E.
  - cbn in E. injection E as <- _. exists []. rewrite app_nil_r.
    repeat split.
  - cbn [Dvm34411.drain] in E. unfold bind at 1 in E.
    destruct (reraising _ (ask _) w) as [[reading|e] w1]; [|discriminate E].
    unfold bind at 1 in E.
    destruct (Dvm34411.decodeBlock reading w1) as [[[rdg|]|e] w2];
      try discriminate E.
    destruct (IH _ _ _ _ E) as (new & -> & L & F).
    exists (VStr rdg :: new). rewrite <- app_assoc.
    split; [reflexivity|]. split; [simpl; rewrite L; reflexivity|exact F].
Qed.

(** X11.  Whenever [waitOverlappedDone(count, timeout)] returns a list,
    the list has exactly [count] elements, never fewer: floats from
    [Daq34972], strings from [Dvm34411].  A reply that cannot be decoded
    in the middle of the draining does not leave a shorter list. *)
Theorem wait_returns_count_readings (fuel : nat) (count : Z)
    (timeout : Py.num) (w w' : world H) (l : list value) :
  (Daq34972.waitOverlappedDone fuel (Py.Int count) timeout w
     = Some (Ret (VList l), w') ->
   List.length l = Z.to_nat count /\ forallb is_float l = true) /\
  (Dvm34411.waitOverlappedDone fuel (Py.Int count) timeout w
     = Some (Ret (VList l), w') ->
   List.length l = Z.to_nat count /\ forallb is_str l = true).
Proof.
  split; intros E.
  - unfold Daq34972.waitOverlappedDone in E. cbn [time_time] in E.
    destruct (Daq34972.poll fuel _ _ _ _) as [[[[|]|e] w1]|];
      try discriminate E.
    cbn [range_length lift bind ret] in E. injection E as E.
    destruct (drain_list _ _ _ _ _ E) as (new & -> & L & F).
    split; [exact L|exact F].
  - unfold Dvm34411.waitOverlappedDone in E. cbn [time_time] in E.
    destruct (Dvm34411.poll fuel _ _ _ _) as [[[[|]|e] w1]|];
      try discriminate E.
    cbn [range_length lift bind ret] in E. injection E as E.
    destruct (drain_text_list _ _ _ _ _ E) as (new & -> & L & F).
    split; [exact L|exact F].
Qed.

End MoreBlocks.

Lemma decodeBlock_edges_witness :
  Daq34972.decodeBlock "X15+1.5" (bench []) =
    (Ret None,
     with_console [[Lit "Daq34972.DLB format error - # expected !"]]
       (bench [])) /\
  Dvm34411.decodeBlock "#x5+1.5" (bench []) = (Raise Py.ValueError, bench []).
Proof.
  split.
  - apply (proj1 (proj2 (proj2 (proj2 (proj2
             (decodeBlock_edges (H := Sim) "X" "15+1.5" (bench []))))))).
    discriminate.
  - apply (proj2 (proj2 (proj2 (proj2 (proj2
             (decodeBlock_edges (H := Sim) "x" "5+1.5" (bench []))))))).
    reflexivity.
Defined.

Lemma wait_returns_count_readings_witness :
  Daq34972.waitOverlappedDone 1 (Py.Int 2) (Py.Int 5)
    (bench ["2"; "#15+1.234"; "#14+2.5"])
  = Some (Ret (VList [VNum (Py.Float 1.234); VNum (Py.Float 2.5)]),
          with_handle
            {| sent := [ [Lit ":DATA:POIN?;"]; [Lit "R? 1;"]; [Lit "R? 1;"] ];
               inbox := [] |}
            (with_ticks 1 (bench ["2"; "#15+1.234"; "#14+2.5"]))) /\
  List.length [VNum (Py.Float 1.234); VNum (Py.Float 2.5)] = Z.to_nat 2.
Proof.
  assert (Daq34972.waitOverlappedDone 1 (Py.Int 2) (Py.Int 5)
            (bench ["2"; "#15+1.234"; "#14+2.5"])
          = Some (Ret (VList [VNum (Py.Float 1.234); VNum (Py.Float 2.5)]),
                  with_handle
                    {| sent := [ [Lit ":DATA:POIN?;"]; [Lit "R? 1;"];
                                 [Lit "R? 1;"] ];
                       inbox := [] |}
                    (with_ticks 1 (bench ["2"; "#15+1.234"; "#14+2.5"]))))
    as E by (vm_compute; reflexivity).
  split; [exact E|].
  exact (proj1 (proj1 (wait_returns_count_readings (T := Sim_Transport)
                         1 2 (Py.Int 5) _ _ _) E)).
Defined.

Lemma rstrip_idempotent (s : string) : Py.rstrip (Py.rstrip s) = Py.rstrip s.
Proof.
  induction s as [|c s IH]; simpl; [reflexivity|].
  destruct (Py.rstrip s) as [|c' r'] eqn:E.
  - destruct (Py.is_space c) eqn:Ec; simpl; [reflexivity|].
    rewrite Ec. reflexivity.
  - simpl in IH |- *. rewrite IH. reflexivity.
Qed.

Lemma rstrip_keeps_head (c : ascii) (r : string) :
  Py.is_space c = false -> exists r', Py.rstrip (String c r) = String c r'.
Proof.
  intros Ec. simpl. destruct (Py.rstrip r) as [|c' r'].
  - rewrite Ec. eexists. reflexivity.
  - eexists. reflexivity.
Qed.

(** Stripping twice is stripping once. *)
Lemma strip_idempotent (s : string) : Py.strip (Py.strip s) = Py.strip s.
Proof.
  unfold Py.strip.
  destruct (lstrip_cases s) as [[_ Hl]|(c & t & Hl & Hc & _)]; rewrite Hl.
  - reflexivity.
  - destruct (rstrip_keeps_head c t Hc) as (r' & Er). rewrite Er.
    simpl Py.lstrip. rewrite Hc. rewrite <- Er. apply rstrip_idempotent.
Qed.

(** [float] strips its argument itself. *)
Lemma float_of_stripped (s : string) :
  Py.float_of_string (Py.strip s) = Py.float_of_string s.
Proof. unfold Py.float_of_string. rewrite strip_idempotent. reflexivity. Qed.

Section SingleRead.
Context {H : Type} {T : Transport H}.


End SingleRead.


(* ================================================================== *)
(** * More on the log and the error counter *)
(* ================================================================== *)

Section MoreLog.
Context {H : Type} {T : Transport H}.

(** One call of the log with an open file. *)
Lemma do_log_open (c : log_call) (w : world H) (f : pyfile) :
  logfile w = Some f -> closed f = false ->
  do_log c w =
    (Ret tt,
     with_logfile
       (Some {| closed := false;
                lines := lines f ++ [cat (shown_line c ++ [Lit newline])] |})
       (with_console (console w ++ [shown_line c]) w)).
Proof.
  intros Ef Ec.
  destruct c as [line|line|name v unit]; cbn [do_log shown_line];
    unfold TestLog.logText, TestLog.logError, TestLog.logValue,
      TestLog.to_file, bind, print_text;
    cbn [with_console logfile]; rewrite Ef;
    unfold reraising, TestLog.file_write; rewrite Ec; reflexivity.
Qed.

(** One call of the log with a closed file. *)
Lemma do_log_closed (c : log_call) (w : world H) (f : pyfile) :
  logfile w = Some f -> closed f = true ->
  do_log c w =
    (Raise Py.ValueError,
     with_console
       (console w ++ [shown_line c; [Lit "Writing to log failed !"]]) w).
Proof.
  intros Ef Ec.
  destruct c as [line|line|name v unit]; cbn [do_log shown_line];
    unfold TestLog.logText, TestLog.logError, TestLog.logValue,
      TestLog.to_file, bind, print_text;
    cbn [with_console logfile]; rewrite Ef;
    unfold reraising, TestLog.file_write; rewrite Ec;
    cbn [raise print print_text snd with_console console];
    rewrite <- app_assoc; reflexivity.
Qed.



Lemma ready_after_check (name : string) (value Min Max : Py.num)
    (w : world H) :
  log_ready w = true ->
  log_ready (snd (check name value Min Max w)) = true.
Proof.
  unfold log_ready, check, Error.chkLimits. intros Hl.
  destruct (logfile w) as [f|] eqn:Ef.
  - destruct (closed f) eqn:Ec; [discriminate Hl|].
    destruct (negb (Py.lt Min value && Py.lt value Max));
      unfold bind, TestLog.logError, TestLog.logText, TestLog.to_file, bind,
        print_text, Errors.bumpError;
      cbn [ret with_console logfile fst snd]; rewrite Ef;
      unfold reraising, TestLog.file_write; rewrite Ec; reflexivity.
  - destruct (negb (Py.lt Min value && Py.lt value Max));
      unfold bind, TestLog.logError, TestLog.logText, TestLog.to_file, bind,
        print_text, Errors.bumpError;
      cbn [ret with_console logfile fst snd]; rewrite Ef; cbn; rewrite Ef;
      reflexivity.
Qed.

Lemma check_run (name : string) (value Min Max : Py.num) (w : world H) :
  log_ready w = true ->
  exists w',
    check name value Min Max w
      = (Ret (Py.lt Min value && Py.lt value Max), w') /\
    errorCount w' =
      errorCount w + (if Py.lt Min value && Py.lt value Max then 0 else 1) /\
    log_ready w' = true.
Proof.
  intros Hl. pose proof (ready_after_check name value Min Max w Hl) as Hr.
  destruct (Py.lt Min value && Py.lt value Max) eqn:Hin.
  - destruct (check_inside_run name value Min Max w Hl Hin) as (w' & E & C).
    exists w'. rewrite E in Hr |- *. repeat split; [lia|exact Hr].
  - destruct (check_outside_run name value Min Max w Hl Hin) as (w' & E & C).
    exists w'. rewrite E in Hr |- *. repeat split; [lia|exact Hr].
Qed.


Lemma handle_check (name : string) (value Min Max : Py.num) :
  keeps (H := H) handle (check name value Min Max).
Proof.
  intros w. unfold check, Error.chkLimits.
  destruct (logfile w) as [f|] eqn:Ef.
  - destruct (closed f) eqn:Ec;
      destruct (negb (Py.lt Min value && Py.lt value Max));
      unfold bind, TestLog.logError, TestLog.logText, TestLog.to_file, bind,
        print_text, Errors.bumpError;
      cbn [ret with_console logfile fst snd]; rewrite Ef;
      unfold reraising, TestLog.file_write; rewrite Ec; reflexivity.
  - destruct (negb (Py.lt Min value && Py.lt value Max));
      unfold bind, TestLog.logError, TestLog.logText, TestLog.to_file, bind,
        print_text, Errors.bumpError;
      cbn [ret with_console logfile fst snd]; rewrite Ef; reflexivity.
Qed.


Lemma logfile_configScan (scanList func : string) (rng : arg)
    (nplc : Py.num) :
  keeps logfile (Daq34972.configScan scanList func rng nplc).
Proof.
  assert (forall s, keeps (H := H) logfile (Daq34972.checkList s)) as K.
  { intros s. unfold Daq34972.checkList.
    apply frame_for_each; [|apply frame_ret].
    intros item. unfold Daq34972.checkItem. frame. }
  unfold Daq34972.configScan. frame_io.
Qed.

Lemma logfile_read : keeps logfile Daq34972.read.
Proof. unfold Daq34972.read. frame_io. Qed.


End MoreLog.






(* ================================================================== *)
(** * Relays, unknown functions, and the simulated library *)
(* ================================================================== *)

(** X18.  [Daq34972.readSwitch] and the relay, for a call without delay
    (the default [delay = 0]): on a legal switch, with an answer to
    ['READ?'] waiting, the instrument is sent the closing of the switch,
    the query and the opening of the same switch, whether or not the
    answer is a number; when the query raises, the exception leaves
    [readSwitch] before the switch is opened again. *)
Theorem readSwitch_relay (switch : Z) (delay : Py.num) (w : world Sim) :
  101 <= switch <= 399 ->
  Py.eq delay (Py.Int 0) = true ->
  let relay := cat [Lit "(@"; Lit (Py.str_int switch); Lit ")"] in
  (forall r rest,
      inbox (handle w) = r :: rest ->
      sent (handle (snd (Daq34972.readSwitch switch delay w)))
        = (sent (handle w) ++
           [cat (Lit "ROUT:CLOS " :: relay); [Lit "READ?"];
            cat (Lit "ROUT:OPEN " :: relay)])%list /\
      fst (Daq34972.readSwitch switch delay w)
        = match Py.float_of_string r with
          | inr x => Ret (VNum (Py.Float x))
          | inl e => Raise e
          end) /\
  (inbox (handle w) = [] ->
   sent (handle (snd (Daq34972.readSwitch switch delay w)))
     = (sent (handle w) ++ [cat (Lit "ROUT:CLOS " :: relay); [Lit "READ?"]])%list
   /\
   fst (Daq34972.readSwitch switch delay w) = Raise Py.VisaIOError).
Proof.
  intros Hsw Hd relay. unfold Daq34972.readSwitch.
  replace (negb ((101 <=? switch) && (switch <=? 399))) with false.
  2:{ symmetry. apply negb_false_iff, andb_true_iff.
      split; apply Z.leb_le; lia. }
  rewrite Hd. cbn [negb].
  split.
  - intros r rest Hin.
    unfold bind, reraising, write, ask.
    cbn [visa_write visa_ask Sim_Transport handle with_handle inbox sent
         ret fst snd].
    rewrite Hin.
    cbn [visa_write visa_ask Sim_Transport handle with_handle inbox sent
         ret fst snd lift].
    destruct (Py.float_of_string r) as [e|x];
      cbn [lift raise ret fst snd print print_text handle with_handle
           with_console sent];
      rewrite <- !app_assoc; split; reflexivity.
  - intros Hin.
    unfold bind, reraising, write, ask.
    cbn [visa_write visa_ask Sim_Transport handle with_handle inbox sent
         ret fst snd].
    rewrite Hin.
    cbn [visa_write visa_ask Sim_Transport handle with_handle inbox sent
         ret fst snd lift raise print print_text with_console].
    rewrite <- !app_assoc; split; reflexivity.
Qed.

Lemma readSwitch_relay_witness :
  sent (handle (snd (Daq34972.readSwitch 205 (Py.Int 0) (bench ["oops"]))))
  = [[Lit "ROUT:CLOS (@205)"]; [Lit "READ?"]; [Lit "ROUT:OPEN (@205)"]] /\
  fst (Daq34972.readSwitch 205 (Py.Int 0) (bench [])) = Raise Py.VisaIOError.
Proof.
  split.
  - apply (proj1 (readSwitch_relay 205 (Py.Int 0) (bench ["oops"])
                    ltac:(lia) eq_refl) "oops" [] eq_refl).
  - apply (proj2 (readSwitch_relay 205 (Py.Int 0) (bench []) ltac:(lia)
                    eq_refl) eq_refl).
Defined.

Lemma among_app_self (k : string) (d : list string) :
  among k (d ++ [k]) = true.
Proof.
  unfold among. rewrite existsb_app. cbn [existsb].
  rewrite String.eqb_refl. rewrite orb_true_l. apply orb_true_r.
Qed.

Lemma filter_absent (k : string) (d : list string) :
  among k d = false ->
  filter (fun x => negb (String.eqb k x)) d = d.
Proof.
  unfold among. induction d as [|x d IH]; intros Hk; [reflexivity|].
  cbn [existsb] in Hk. apply orb_false_iff in Hk. destruct Hk as [Hx Hd].
  cbn [filter]. rewrite Hx. cbn [negb]. rewrite (IH Hd). reflexivity.
Qed.

Lemma among_filter (k : string) (d : list string) :
  among k (filter (fun x => negb (String.eqb k x)) d) = false.
Proof.
  unfold among. induction d as [|x d IH]; [reflexivity|].
  cbn [filter]. destruct (String.eqb k x) eqn:E; cbn [negb]; [exact IH|].
  cbn [existsb]. rewrite E, IH. reflexivity.
Qed.

Lemma dict_pop_removes (k : string) (d d' : list string) :
  VisaSim.dict_pop k d = inr d' -> among k d' = false.
Proof.
  unfold VisaSim.dict_pop. destruct (among k d); [|discriminate].
  intros E. injection E as <-. apply among_filter.
Qed.

Lemma dict_set_present (k : string) (d : list string) :
  among k (VisaSim.dict_set k d) = true.
Proof.
  unfold VisaSim.dict_set. destruct (among k d) eqn:E; [exact E|].
  apply among_app_self.
Qed.

(** X19.  The simulated resource manager, round trip: opening an
    instrument under a name that is not yet in [self.devices] and closing
    the handle again leaves the dictionary as it was, and the library has
    printed the two lines of the opening and the closing. *)
Theorem get_instrument_then_close (name : string) (m : VisaSim.manager) :
  among name (VisaSim.devices m) = false ->
  let m1 := snd (VisaSim.get_instrument name m) in
  fst (VisaSim.get_instrument name m) = Ret name /\
  fst (VisaSim.device_close name m1) = Ret tt /\
  VisaSim.devices (snd (VisaSim.device_close name m1)) = VisaSim.devices m /\
  VisaSim.shown (snd (VisaSim.device_close name m1))
    = (VisaSim.shown m ++
       [cat [Lit name; Lit " instrument created."];
        cat [Lit name; Lit " instrument closed."]])%list.
Proof.
  intros Hk m1. subst m1.
  unfold VisaSim.device_close, VisaSim.close_instrument,
    VisaSim.get_instrument, VisaSim.show, VisaSim.dict_pop, VisaSim.dict_set.
  cbn [snd fst VisaSim.devices VisaSim.shown].
  rewrite Hk, among_app_self.
  cbn [snd fst VisaSim.devices VisaSim.shown].
  repeat split.
  - rewrite filter_app. cbn [filter]. rewrite String.eqb_refl. cbn [negb].
    rewrite app_nil_r. apply filter_absent, Hk.
  - rewrite <- app_assoc. reflexivity.
Qed.

Lemma get_instrument_then_close_witness :
  VisaSim.devices
    (snd (VisaSim.device_close "34411A"
            (snd (VisaSim.get_instrument "34411A"
                    (snd (VisaSim.get_instrument "34972A" VisaSim.init))))))
  = ["34972A"].
Proof.
  exact (proj1 (proj2 (proj2
           (get_instrument_then_close "34411A"
              (snd (VisaSim.get_instrument "34972A" VisaSim.init))
              eq_refl)))).
Defined.

(** X20.  A handle of the simulated library closes once: once
    [Device.close()] has returned, a second [close()] of a handle
    with the same name raises [KeyError] and changes nothing.  So it does
    for the second of two handles that were opened under one name, and
    for every handle after [rm.close()]. *)
Theorem device_closes_once (name : string) (m : VisaSim.manager) :
  (forall m', VisaSim.device_close name m = (Ret tt, m') ->
              VisaSim.device_close name m' = (Raise Py.KeyError, m')) /\
  (let m2 := snd (VisaSim.get_instrument name
                    (snd (VisaSim.get_instrument name m))) in
   fst (VisaSim.device_close name m2) = Ret tt /\
   fst (VisaSim.device_close name (snd (VisaSim.device_close name m2)))
     = Raise Py.KeyError) /\
  VisaSim.device_close name (snd (VisaSim.close m))
    = (Raise Py.KeyError, snd (VisaSim.close m)).
Proof.
  assert (Once : forall m0 m',
             VisaSim.device_close name m0 = (Ret tt, m') ->
             VisaSim.device_close name m' = (Raise Py.KeyError, m')).
  { intros m0 m'. unfold VisaSim.device_close, VisaSim.close_instrument.
    destruct (VisaSim.dict_pop name (VisaSim.devices m0)) as [e|d] eqn:E;
      [discriminate|].
    intros R. injection R as <-.
    cbn [VisaSim.show VisaSim.devices].
    unfold VisaSim.dict_pop. rewrite (dict_pop_removes _ _ _ E).
    reflexivity. }
  split; [apply Once|]. split; [|reflexivity].
  intros m2.
  assert (First : exists m3, VisaSim.device_close name m2 = (Ret tt, m3)).
  { subst m2. unfold VisaSim.device_close, VisaSim.close_instrument,
      VisaSim.dict_pop.
    cbn [VisaSim.get_instrument VisaSim.show snd VisaSim.devices].
    rewrite dict_set_present. eexists. reflexivity. }
  destruct First as (m3 & R). rewrite R. cbn [fst snd].
  split; [reflexivity|]. rewrite (Once _ _ R). reflexivity.
Qed.

Lemma device_closes_once_witness :
  fst (VisaSim.device_close "VISA"
         (snd (VisaSim.device_close "VISA"
                 (snd (VisaSim.get_instrument "VISA" VisaSim.init)))))
  = Raise Py.KeyError.
Proof.
  exact (f_equal fst
           (proj1 (device_closes_once "VISA"
                     (snd (VisaSim.get_instrument "VISA" VisaSim.init)))
              (snd (VisaSim.device_close "VISA"
                      (snd (VisaSim.get_instrument "VISA" VisaSim.init))))
              eq_refl)).
Defined.

(** X21.  The wrappers over the simulated library.  A [Device] of
    visasim answers ['+2.34'] to every query, so [read] of [Daq34972]
    and of [Daq3706] return [2.34], while every wait for an overlapped
    measurement, and [Dvm34411.read], raise [ValueError] at the first
    poll: the answer to the count query is no integer.  This holds for
    every count, timeout and state of the process. *)
Theorem simulated_device_fails_the_poll (fuel : nat) (count timeout : Py.num)
    (w : world VisaSim.device) :
  let T := VisaSim.device_Transport in
  fst (Daq34972.read (T := T) w) = Ret (Py.Float 2.34) /\
  fst (Daq3706.read (T := T) w) = Ret (VNum (Py.Float 2.34)) /\
  option_map fst (Daq34972.waitOverlappedDone (T := T) (S fuel) count timeout w)
    = Some (Raise Py.ValueError) /\
  option_map fst (Dvm34411.waitOverlappedDone (T := T) (S fuel) count timeout w)
    = Some (Raise Py.ValueError) /\
  option_map fst (Dvm34411.read (T := T) (S fuel) timeout w)
    = Some (Raise Py.ValueError).
Proof.
  intros T. subst T. repeat split; vm_compute; reflexivity.
Qed.

Lemma unknown_to_3706 (func : string) :
  among func (map fst Daq3706.ranges) = false ->
  lookup Daq3706.ranges func = inl Py.KeyError /\
  among func Daq3706.noRange = false /\
  among func Daq3706.noNplc = false.
Proof.
  unfold among. cbn [map fst Daq3706.ranges existsb Daq3706.noRange
                     Daq3706.noNplc lookup].
  intros Hk.
  repeat match type of Hk with
         | (_ || _) = false =>
             apply orb_false_iff in Hk;
             let E := fresh "E" in destruct Hk as [E Hk]
         end.
  repeat match goal with
         | E : String.eqb func ?k = false |- _ =>
             rewrite (String.eqb_sym k func); rewrite E; clear E
         end.
  repeat split; reflexivity.
Qed.

(** X22.  [Daq3706.configDmm] with a function name that is in no table,
    as the default ['dcvolt'] is (the table has ['dcvolts']): the test for
    an illegal function rejects nothing, so with [rng = 'auto'] and a
    legal [nplc] the name is sent to the instrument with the range and the
    NPLC and the call returns [True]; with any other [rng] the lookup of
    the range limits raises [KeyError], nothing printed and nothing
    sent. *)
Theorem configDmm_unknown_function (func : string) (rng : arg)
    (nplc : Py.num) (w : world Sim) :
  among (Py.lower func) (map fst Daq3706.ranges) = false ->
  (arg_is rng "auto" = true ->
   Py.lt nplc (Py.Float 0.2) = false ->
   Py.gt nplc (Py.Int 200) = false ->
   Daq3706.configDmm func rng nplc w
   = (Ret true,
      with_handle
        {| sent := (sent (handle w) ++
                    [cat [Lit "dmm.func="; Lit dquote; Lit (Py.lower func);
                          Lit dquote];
                     [Lit "dmm.range=auto"];
                     cat [Lit "dmm.nplc="; str_num nplc]])%list;
           inbox := inbox (handle w) |} w)) /\
  (arg_is rng "auto" = false ->
   Daq3706.configDmm func rng nplc w = (Raise Py.KeyError, w)).
Proof.
  intros Hk. destruct (unknown_to_3706 _ Hk) as (Hl & Hr & Hn).
  unfold Daq3706.configDmm, list_eq_bool. rewrite andb_false_r.
  rewrite Hr, Hn. cbn [Bool.eqb andb].
  split.
  - intros Ha Hlo Hhi. rewrite Ha, Hlo, Hhi. cbn [orb].
    destruct rng as [s|r]; [|discriminate].
    apply String.eqb_eq in Ha. subst s.
    unfold bind, reraising, write.
    cbn [ret visa_write Sim_Transport handle with_handle sent inbox fst snd
         str_arg].
    rewrite <- !app_assoc. reflexivity.
  - intros Ha. rewrite Ha. unfold bind at 1. unfold bind at 1.
    unfold lift at 1. rewrite Hl. reflexivity.
Qed.

Lemma configDmm_unknown_function_witness :
  Daq3706.configDmm "dcvolt" (AStr "auto") (Py.Int 1) (bench [])
  = (Ret true,
     with_handle
       {| sent := [ cat [Lit "dmm.func="; Lit dquote; Lit "dcvolt"; Lit dquote];
                    [Lit "dmm.range=auto"]; [Lit "dmm.nplc=1"] ];
          inbox := [] |} (bench [])) /\
  Daq3706.configDmm "dcvolt" (ANum (Py.Int 10)) (Py.Int 1) (bench [])
  = (Raise Py.KeyError, bench []).
Proof.
  split.
  - exact (proj1 (configDmm_unknown_function "dcvolt" (AStr "auto")
                    (Py.Int 1) (bench []) eq_refl) eq_refl eq_refl eq_refl).
  - exact (proj2 (configDmm_unknown_function "dcvolt" (ANum (Py.Int 10))
                    (Py.Int 1) (bench []) eq_refl) eq_refl).
Defined.

Section ReadOf3706.
Context {H : Type} {T : Transport H}.

(** X23.  [Daq3706.read] after the reply has come: whatever happens then
    (the instrument refuses ['buffer=nil'], or the reply is no number),
    the call does not raise; it returns the reply as a float, or
    [False] when the reply is no number.  [Daq34972.read] on the same
    reply raises the [ValueError] of [float()]. *)
Theorem read_3706_swallows_conversion_errors (w w1 : world H)
    (reslt : string) :
  (write [Lit "buffer = dmm.makebuffer(1)"] ;;;
   write [Lit "dmm.measurecount = 1"] ;;;
   ask [Lit "print(dmm.measure(buffer))"]) w = (Ret reslt, w1) ->
  (fst (Daq3706.read w) = Ret (VBool false) \/
   exists x, Py.float_of_string reslt = inr x /\
             fst (Daq3706.read w) = Ret (VNum (Py.Float x))) /\
  (forall e, Py.float_of_string reslt = inl e ->
             fst (Daq3706.read w) = Ret (VBool false)) /\
  (forall e w0 w0',
      ask [Lit "READ?"] w0 = (Ret reslt, w0') ->
      Py.float_of_string reslt = inl e ->
      fst (Daq34972.read w0) = Raise e).
Proof.
  intros E.
  assert (R : Daq3706.read w
              = Daq3706.catching
                  "Daq3706.read() reading conversion to float failed !"
                  (VBool false)
                  (write [Lit "buffer=nil"] ;;;
                   reading <- lift (Py.float_of_string reslt) ;;
                   ret (VNum (Py.Float reading))) w1).
  { unfold Daq3706.read. unfold bind at 1. unfold reraising. rewrite E.
    reflexivity. }
  rewrite R. unfold Daq3706.catching, bind.
  destruct (write [Lit "buffer=nil"] w1) as [[u|e0] w2] eqn:Ew.
  - unfold lift.
    destruct (Py.float_of_string reslt) as [e|x] eqn:Ef; cbn [ret raise fst].
    + split; [left; reflexivity|]. split; [reflexivity|].
      intros e' w0 w0' Ea Ee. injection Ee as <-.
      unfold Daq34972.read. unfold bind at 1. unfold reraising at 1.
      rewrite Ea. unfold bind at 1. unfold reraising, lift. rewrite Ef.
      reflexivity.
    + split; [right; exists x; split; reflexivity|].
      split; intros; discriminate.
  - cbn [fst]. split; [left; reflexivity|]. split; [reflexivity|].
    intros e' w0 w0' Ea Ee.
    unfold Daq34972.read. unfold bind at 1. unfold reraising at 1.
    rewrite Ea. unfold bind at 1. unfold reraising, lift. rewrite Ee.
    reflexivity.
Qed.

End ReadOf3706.

Lemma read_3706_swallows_conversion_errors_witness :
  fst (Daq3706.read (bench ["overflow"])) = Ret (VBool false) /\
  fst (Daq34972.read (bench ["overflow"])) = Raise Py.ValueError.
Proof.
  pose (w1 := snd ((write [Lit "buffer = dmm.makebuffer(1)"] ;;;
                    write [Lit "dmm.measurecount = 1"] ;;;
                    ask [Lit "print(dmm.measure(buffer))"])
                     (bench ["overflow"]))).
  pose (w0 := snd (ask [Lit "READ?"] (bench ["overflow"]))).
  assert (E : (write [Lit "buffer = dmm.makebuffer(1)"] ;;;
               write [Lit "dmm.measurecount = 1"] ;;;
               ask [Lit "print(dmm.measure(buffer))"]) (bench ["overflow"])
              = (Ret "overflow", w1)) by (vm_compute; reflexivity).
  assert (F : Py.float_of_string "overflow" = inl Py.ValueError)
    by (vm_compute; reflexivity).
  assert (A : ask [Lit "READ?"] (bench ["overflow"]) = (Ret "overflow", w0))
    by (vm_compute; reflexivity).
  destruct (read_3706_swallows_conversion_errors (T := Sim_Transport)
              (bench ["overflow"]) w1 "overflow" E) as (_ & No & Yes).
  split.
  - exact (No Py.ValueError F).
  - exact (Yes Py.ValueError (bench ["overflow"]) w0 A F).
Defined.
